(** * Chat-completion adapters and the VNC browser launcher of magentic-ui

    A shallow embedding of
      - [src/magentic_ui/models/bedrock_claude_client.py]
      - [src/magentic_ui/models/gemini_client.py]
      - [src/magentic_ui/tools/playwright/browser/vnc_docker_playwright_browser.py]
    followed by the properties of the specification that concern them.

    Conventions.  A Python [str] is a [string] holding its UTF-8 encoding, so
    that concatenation, [join] and f-string formatting are byte-wise
    concatenation; [len] and [split], which see code points, are written on
    top of that encoding.  A Python [int] is a [Z].  A Python [float] is
    never computed with in these files, it is carried as its IEEE-754
    binary64 bit pattern.  Exceptions are values of [exn], and a call that
    may raise returns a [result]. *)

From Stdlib Require Import ZArith String Ascii List DecimalString DecimalZ Lia.
From stdpp Require Import gmap strings list.

Local Open Scope Z_scope.

(** ** Python values shared by the three files *)

Module Py.

Inductive exn : Type :=
| TypeError
| KeyError
| IndexError
| AttributeError
| ValueError
| RuntimeError
| NotImplementedError
| VendorError (msg : string).

Inductive result (A : Type) : Type :=
| Ok (a : A)
| Raise (e : exn).

Arguments Ok {A} a.
Arguments Raise {A} e.

#[global] Instance result_ret : MRet result := fun _ a => Ok a.

#[global] Instance result_bind : MBind result := fun _ _ k r =>
  match r with
  | Ok a => k a
  | Raise e => Raise e
  end.

Definition is_ok {A : Type} (r : result A) : bool :=
  match r with Ok _ => true | Raise _ => false end.

(** IEEE-754 binary64 bit pattern of a Python float; [0.0] is the pattern 0. *)
Definition float : Type := N.

Definition float_zero : float := 0%N.

(** [str(n)] for an [int]. *)
Definition str_int (n : Z) : string := NilZero.string_of_int (Z.to_int n).

(** [sep.join(parts)]. *)
Definition join (sep : string) (parts : list string) : string :=
  String.concat sep parts.

(** Truth value of a [str]: the empty string is falsy. *)
Definition str_truthy (s : string) : bool :=
  match s with
  | EmptyString => false
  | String _ _ => true
  end.

(** Truth value of an [Optional[str]]: [None] and [""] are falsy. *)
Definition opt_truthy (o : option string) : bool :=
  match o with
  | None => false
  | Some s => str_truthy s
  end.

(** [a or b] on two [Optional[str]]: [a] when it is truthy, else [b]
    itself, truthy or not. *)
Definition or_opt (a b : option string) : option string :=
  if opt_truthy a then a else b.

(** [a or d] where [d] is a [str]. *)
Definition or_str (a : option string) (d : string) : string :=
  match a with
  | Some s => if str_truthy s then s else d
  | None => d
  end.

(** A byte of the form 10xxxxxx continues a UTF-8 sequence. *)
Definition is_continuation (c : ascii) : bool :=
  let n := N_of_ascii c in
  ((128 <=? n) && (n <? 192))%N.

(** [len(s)]: the number of code points, that is of bytes that start one. *)
Fixpoint len (s : string) : Z :=
  match s with
  | EmptyString => 0
  | String c rest => (if is_continuation c then 0 else 1) + len rest
  end.

(** The code points [str.split()] treats as white space, as UTF-8 byte
    sequences (Python's [str.isspace]). *)
Definition whitespace : list (list N) :=
  [ [9]; [10]; [11]; [12]; [13]; [28]; [29]; [30]; [31]; [32];
    [194; 133]; [194; 160]; [225; 154; 128];
    [226; 128; 128]; [226; 128; 129]; [226; 128; 130]; [226; 128; 131];
    [226; 128; 132]; [226; 128; 133]; [226; 128; 134]; [226; 128; 135];
    [226; 128; 136]; [226; 128; 137]; [226; 128; 138];
    [226; 128; 168]; [226; 128; 169]; [226; 128; 175];
    [226; 129; 159]; [227; 128; 128] ]%N.

Fixpoint strip_bytes (p : list N) (s : string) : option string :=
  match p with
  | [] => Some s
  | b :: p' =>
      match s with
      | EmptyString => None
      | String c rest =>
          if (N_of_ascii c =? b)%N then strip_bytes p' rest else None
      end
  end.

(** The rest of [s] after a leading white-space code point, if it has one. *)
Definition strip_space (s : string) : option string :=
  let fix go (ws : list (list N)) : option string :=
    match ws with
    | [] => None
    | p :: ws' =>
        match strip_bytes p s with
        | Some rest => Some rest
        | None => go ws'
        end
    end in
  go whitespace.

(** [len(s.split())]: the number of maximal runs of characters that are
    not white space.  [in_word] tells whether the previous character
    belonged to a word; white space of several bytes is skipped byte by
    byte with [skip]. *)
Fixpoint count_words (skip : nat) (in_word : bool) (s : string) : Z :=
  match s with
  | EmptyString => 0
  | String c rest =>
      match skip with
      | S k => count_words k in_word rest
      | O =>
          match strip_space s with
          | Some after =>
              count_words (String.length rest - String.length after)%nat
                          false rest
          | None =>
              (if in_word then 0 else 1) + count_words 0 true rest
          end
      end
  end.

Definition split_len (s : string) : Z := count_words 0 false s.

End Py.

Import Py.

(** ** vnc_docker_playwright_browser.py *)

Module Launcher.

(** [os.environ], read through [os.getenv]. *)
Definition getenv (env : gmap string string) (name : string) : option string :=
  env !! name.

(** [VncDockerPlaywrightBrowserConfig], the pydantic schema.  [_to_config]
    fills every field, so the defaults of the schema never apply here. *)
Record VncDockerPlaywrightBrowserConfig : Type := {
  bind_dir : string;
  image : string;
  playwright_port : Z;
  novnc_port : Z;
  playwright_websocket_path : option string;
  inside_docker : bool
}.

(** The attributes [__init__] sets on the instance. *)
Record VncDockerPlaywrightBrowser : Type := {
  _bind_dir : string;
  _image : string;
  _playwright_port : Z;
  _novnc_port : Z;
  _playwright_websocket_path : string;
  _inside_docker : bool;
  _network_name : string;
  _hostname : string;
  _docker_name : string
}.

(** The keyword arguments of a call [VncDockerPlaywrightBrowser(...)]: the
    seven keywords of the signature, each given or not, and whatever other
    keywords the caller wrote, with their values. *)
Record call_kwargs : Type := {
  kw_bind_dir : option string;
  kw_image : option string;
  kw_playwright_port : option Z;
  kw_playwright_websocket_path : option (option string);
  kw_novnc_port : option Z;
  kw_inside_docker : option bool;
  kw_network_name : option string;
  kw_other : list (string * string)
}.

(** The parameters of [__init__] once bound. *)
Record init_params : Type := {
  p_bind_dir : string;
  p_image : string;
  p_playwright_port : Z;
  p_playwright_websocket_path : option string;
  p_novnc_port : Z;
  p_inside_docker : bool;
  p_network_name : string
}.

(** Binding of the keyword-only signature
    [(self, *, bind_dir, image=..., playwright_port=37367,
      playwright_websocket_path=None, novnc_port=6080, inside_docker=True,
      network_name="my-network")]:
    a keyword the signature does not declare, or a missing [bind_dir], is a
    [TypeError]. *)
Definition bind_signature (kw : call_kwargs) : result init_params :=
  match kw_other kw with
  | _ :: _ => Raise TypeError
  | [] =>
      match kw_bind_dir kw with
      | None => Raise TypeError
      | Some dir =>
          Ok {| p_bind_dir := dir;
                p_image := default "magentic-ui-vnc-browser" (kw_image kw);
                p_playwright_port := default 37367 (kw_playwright_port kw);
                p_playwright_websocket_path :=
                  default None (kw_playwright_websocket_path kw);
                p_novnc_port := default 6080 (kw_novnc_port kw);
                p_inside_docker := default true (kw_inside_docker kw);
                p_network_name := default "my-network" (kw_network_name kw) |}
      end
  end.

Definition hex_digit (d : N) : ascii :=
  ascii_of_N (if (d <? 10)%N then 48 + d else 87 + d)%N.

(** The [n] low hexadecimal digits of [v], most significant first. *)
Fixpoint hex_digits (n : nat) (v : N) : string :=
  match n with
  | O => EmptyString
  | S n' => hex_digits n' (v / 16)%N +:+ String (hex_digit (v mod 16)%N) EmptyString
  end.

(** [secrets.token_hex(nbytes)]: [nbytes] bytes drawn from the system's
    random source, here the low bytes of the draw [rnd], in lower-case
    hexadecimal. *)
Definition token_hex (nbytes : nat) (rnd : N) : string :=
  hex_digits (2 * nbytes) rnd.

(** The chain
    [os.getenv("MUI_EXTERNAL_HOST") or os.getenv("PUBLIC_HOST")
     or os.getenv("PUBLIC_IP") or os.getenv("HOST_IP")]. *)
Definition external_host_env (env : gmap string string) : option string :=
  or_opt (getenv env "MUI_EXTERNAL_HOST")
    (or_opt (getenv env "PUBLIC_HOST")
       (or_opt (getenv env "PUBLIC_IP") (getenv env "HOST_IP"))).

(** [f"magentic-ui-vnc-browser_{path}_{novnc_port}"]. *)
Definition container_name (path : string) (novnc : Z) : string :=
  "magentic-ui-vnc-browser_" +:+ path +:+ "_" +:+ str_int novnc.

(** The conditional expression assigned to [self._hostname]. *)
Definition resolve_hostname (env : gmap string string) (inside : bool)
    (path : string) (novnc : Z) : string :=
  if inside then container_name path novnc
  else or_str (external_host_env env) "127.0.0.1".

(** The body of [__init__].  [env] is the process environment when the
    constructor runs and [rnd] the draw [secrets.token_hex] would make.
    ([super().__init__()] belongs to [base_playwright_browser] and touches
    none of the attributes below.) *)
Definition __init__ (p : init_params) (env : gmap string string) (rnd : N)
    : VncDockerPlaywrightBrowser :=
  let path :=
    match p_playwright_websocket_path p with
    | Some s => if str_truthy s then s else token_hex 16 rnd
    | None => token_hex 16 rnd
    end in
  {| _bind_dir := p_bind_dir p;
     _image := p_image p;
     _playwright_port := p_playwright_port p;
     _novnc_port := p_novnc_port p;
     _playwright_websocket_path := path;
     _inside_docker := p_inside_docker p;
     _network_name := p_network_name p;
     _hostname := resolve_hostname env (p_inside_docker p) path (p_novnc_port p);
     _docker_name := container_name path (p_novnc_port p) |}.

(** A call of the class with the keyword arguments [kw]. *)
Definition new (kw : call_kwargs) (env : gmap string string) (rnd : N)
    : result VncDockerPlaywrightBrowser :=
  p ← bind_signature kw; Ok (__init__ p env rnd).

(** [_generate_new_browser_address].  [pw_probe] and [novnc_probe] are the
    port numbers the two calls of [_get_available_port] obtain from the
    operating system, [env] the environment at that moment. *)
Definition _generate_new_browser_address (self : VncDockerPlaywrightBrowser)
    (env : gmap string string) (pw_probe novnc_probe : Z)
    : VncDockerPlaywrightBrowser :=
  {| _bind_dir := _bind_dir self;
     _image := _image self;
     _playwright_port := pw_probe;
     _novnc_port := novnc_probe;
     _playwright_websocket_path := _playwright_websocket_path self;
     _inside_docker := _inside_docker self;
     _network_name := _network_name self;
     _hostname := resolve_hostname env (_inside_docker self)
                    (_playwright_websocket_path self) novnc_probe;
     _docker_name := container_name (_playwright_websocket_path self) novnc_probe |}.

(** Property [browser_address]. *)
Definition browser_address (self : VncDockerPlaywrightBrowser) : string :=
  "ws://" +:+ _hostname self +:+ ":" +:+ str_int (_playwright_port self)
    +:+ "/" +:+ _playwright_websocket_path self.

(** Property [vnc_address]. *)
Definition vnc_address (self : VncDockerPlaywrightBrowser) : string :=
  "http://" +:+ _hostname self +:+ ":" +:+ str_int (_novnc_port self)
    +:+ "/vnc.html".

Definition _to_config (self : VncDockerPlaywrightBrowser)
    : VncDockerPlaywrightBrowserConfig :=
  {| bind_dir := _bind_dir self;
     image := _image self;
     playwright_port := _playwright_port self;
     novnc_port := _novnc_port self;
     playwright_websocket_path := Some (_playwright_websocket_path self);
     inside_docker := _inside_docker self |}.

(** [_from_config]: the constructor called with six keywords, [network_name]
    not among them. *)
Definition _from_config (config : VncDockerPlaywrightBrowserConfig)
    (env : gmap string string) (rnd : N) : result VncDockerPlaywrightBrowser :=
  new {| kw_bind_dir := Some (bind_dir config);
         kw_image := Some (image config);
         kw_playwright_port := Some (playwright_port config);
         kw_playwright_websocket_path := Some (playwright_websocket_path config);
         kw_novnc_port := Some (novnc_port config);
         kw_inside_docker := Some (inside_docker config);
         kw_network_name := None;
         kw_other := [] |} env rnd.

(** The instances a program can hold: built by the constructor, then
    taken through any number of port regenerations. *)
Inductive instance : VncDockerPlaywrightBrowser -> Prop :=
| instance_new kw env rnd b :
    new kw env rnd = Ok b -> instance b
| instance_regenerated b env pw novnc :
    instance b -> instance (_generate_new_browser_address b env pw novnc).

(** [last_env env b]: [b] is an instance whose host name was last computed
    under the environment [env]. *)
Inductive last_env (env : gmap string string) : VncDockerPlaywrightBrowser -> Prop :=
| last_env_new kw rnd b :
    new kw env rnd = Ok b -> last_env env b
| last_env_regenerated b pw novnc :
    instance b -> last_env env (_generate_new_browser_address b env pw novnc).

(** The keyword arguments [create_container] passes to
    [client.containers.create].  A dictionary literal that names a key
    twice keeps the later value. *)
Record container_request : Type := {
  request_name : string;
  request_image : string;
  request_detach : bool;
  request_auto_remove : bool;
  request_network : option string;
  request_ports : gmap string Z;
  request_volumes : gmap string (string * string);
  request_environment : gmap string string
}.

(** [create_container], up to the call of the container runtime.
    [resolve] is [Path.resolve] on the file system of the host. *)
Definition create_container (self : VncDockerPlaywrightBrowser)
    (resolve : string -> string) : container_request :=
  {| request_name := _docker_name self;
     request_image := _image self;
     request_detach := true;
     request_auto_remove := true;
     request_network :=
       if _inside_docker self then Some (_network_name self) else None;
     request_ports :=
       <[ str_int (_novnc_port self) +:+ "/tcp" := _novnc_port self ]>
         {[ str_int (_playwright_port self) +:+ "/tcp" := _playwright_port self ]};
     request_volumes := {[ resolve (_bind_dir self) := ("/workspace", "rw") ]};
     request_environment :=
       <[ "NO_VNC_PORT" := str_int (_novnc_port self) ]>
         (<[ "PLAYWRIGHT_PORT" := str_int (_playwright_port self) ]>
            {[ "PLAYWRIGHT_WS_PATH" := _playwright_websocket_path self ]}) |}.

End Launcher.

(** ** Messages and the records of [autogen_core.models] *)

Module Autogen.

(** An element of a list-valued content: a [str], or another object seen
    through [str(p)]. *)
Inductive part : Type :=
| PStr (s : string)
| PObj (shown : string).

Definition str_part (p : part) : string :=
  match p with
  | PStr s => s
  | PObj shown => shown
  end.

(** The content of a message: a [str], a [list], or another object, of
    which the adapters only ever take [str(content)]. *)
Inductive content : Type :=
| CStr (s : string)
| CList (parts : list part)
| CObj (shown : string).

(** A message as the adapters look at it.  [MDict role content] is a
    [dict] that has, or not, the keys ["role"] and ["content"].  [MObj] is
    any other object: the attributes [role] and [content] it has or not,
    [m.__class__.__name__.lower()] and [str(m)]. *)
Inductive message : Type :=
| MDict (role : option string) (body : option content)
| MObj (role : option string) (body : option content)
       (class_lower : string) (shown : string).

(** [RequestUsage]. *)
Record RequestUsage : Type := {
  prompt_tokens : Z;
  completion_tokens : Z
}.

Definition usage_zero : RequestUsage :=
  {| prompt_tokens := 0; completion_tokens := 0 |}.

(** Field-wise sum, the expression both [_update_usage] methods build. *)
Definition usage_add (u delta : RequestUsage) : RequestUsage :=
  {| prompt_tokens := prompt_tokens u + prompt_tokens delta;
     completion_tokens := completion_tokens u + completion_tokens delta |}.

(** [CreateResult], with a [str] content. *)
Record CreateResult : Type := {
  finish_reason : string;
  result_content : string;
  usage : RequestUsage;
  cached : bool
}.

(** The value of a keyword argument passed through [**kwargs]. *)
Inductive kwval : Type :=
| KNone
| KBool (b : bool)
| KInt (n : Z)
| KFloat (x : float)
| KStr (s : string).

Definition kw_truthy (v : kwval) : bool :=
  match v with
  | KNone => false
  | KBool b => b
  | KInt n => negb (n =? 0)
  | KFloat x => negb ((x =? 0)%N || (x =? 2 ^ 63)%N)
  | KStr s => str_truthy s
  end.

End Autogen.

Import Autogen.

(** ** JSON values as [json.loads] returns them *)

Module Json.

#[warnings="-register-all"]
Inductive json : Type :=
| JNull
| JBool (b : bool)
| JInt (n : Z)
| JFloat (x : float)
| JStr (s : string)
| JArr (items : list json)
| JObj (fields : list (string * json)).

(** Lookup of a key in a [dict]; the list holds each key once, in
    insertion order. *)
Fixpoint field (k : string) (fields : list (string * json)) : option json :=
  match fields with
  | [] => None
  | (k', v) :: rest => if String.eqb k k' then Some v else field k rest
  end.

(** The first code point of a [str], as a one-character [str]. *)
Fixpoint leading_continuation (s : string) : string :=
  match s with
  | EmptyString => EmptyString
  | String c rest =>
      if is_continuation c then String c (leading_continuation rest)
      else EmptyString
  end.

Definition first_char (s : string) : option string :=
  match s with
  | EmptyString => None
  | String c rest => Some (String c (leading_continuation rest))
  end.

(** [v[k]] for a [str] key [k]. *)
Definition getitem_key (v : json) (k : string) : result json :=
  match v with
  | JObj fields =>
      match field k fields with
      | Some x => Ok x
      | None => Raise KeyError
      end
  | _ => Raise TypeError
  end.

(** [v[0]]. *)
Definition getitem_0 (v : json) : result json :=
  match v with
  | JArr (x :: _) => Ok x
  | JArr [] => Raise IndexError
  | JStr s =>
      match first_char s with
      | Some c => Ok (JStr c)
      | None => Raise IndexError
      end
  | JObj _ => Raise KeyError
  | _ => Raise TypeError
  end.

(** [v.get(k, d)]. *)
Definition get (v : json) (k : string) (d : json) : result json :=
  match v with
  | JObj fields => Ok (default d (field k fields))
  | _ => Raise AttributeError
  end.

End Json.

Import Json.

(** ** bedrock_claude_client.py *)

Module Bedrock.

(** The dictionary [{"role": ..., "content": ...}] of the converted list. *)
Record entry : Type := {
  entry_role : string;
  entry_content : content
}.

(** One turn of the loop of [_convert_messages]: the state is the list
    [converted], the message is appended to it. *)
Definition convert_step (converted : list entry) (m : message) : list entry :=
  let '(role, body) :=
    match m with
    | MDict role body => (default "user" role, default (CStr "") body)
    | MObj role body _ shown => (default "user" role, default (CStr shown) body)
    end in
  let body :=
    match body with
    | CList parts => CStr (join " " (map str_part parts))
    | _ => body
    end in
  converted ++ [ {| entry_role := role; entry_content := body |} ].

Definition _convert_messages (messages : list message) : list entry :=
  fold_left convert_step messages [].

(** The attributes of a client.  [_usage] is [None] as long as the
    instance has no attribute [_actual_usage]; afterwards it holds
    [(_actual_usage, _total_usage)], which are created together. *)
Record BedrockClaudeChatCompletionClient : Type := {
  _model_id : string;
  _aws_region : string;
  _temperature : float;
  _max_tokens : Z;
  _usage : option (RequestUsage * RequestUsage)
}.

(** The request body handed to [json.dumps]. *)
Record payload : Type := {
  anthropic_version : string;
  payload_max_tokens : kwval;
  payload_temperature : kwval;
  payload_messages : list entry
}.

(** [invoke_model] followed by reading and parsing the body: for a model
    identifier and a request, the parsed response or the exception. *)
Definition backend : Type := string -> payload -> result json.

Record chat_message : Type := {
  message_role : string;
  message_content : json
}.

Record choice : Type := {
  choice_message : chat_message;
  choice_finish_reason : json
}.

(** The dictionary [{"choices": [...]}]. *)
Record chat_completion : Type := {
  choices : list choice
}.

Definition build_payload (self : BedrockClaudeChatCompletionClient)
    (messages : list message) (kwargs : gmap string kwval) : payload :=
  {| anthropic_version := "bedrock-2023-05-31";
     payload_max_tokens := default (KInt (_max_tokens self)) (kwargs !! "max_tokens");
     payload_temperature :=
       default (KFloat (_temperature self)) (kwargs !! "temperature");
     payload_messages := _convert_messages messages |}.

(** [body_json["content"][0]["text"]]. *)
Definition assistant_text (body_json : json) : result json :=
  blocks ← getitem_key body_json "content";
  first ← getitem_0 blocks;
  getitem_key first "text".

Definition create_chat_completion (self : BedrockClaudeChatCompletionClient)
    (vendor : backend) (messages : list message) (stream : bool)
    (kwargs : gmap string kwval) : result chat_completion :=
  if stream then Raise NotImplementedError
  else
    body_json ← vendor (_model_id self) (build_payload self messages kwargs);
    text ← assistant_text body_json;
    finish ← get body_json "stop_reason" (JStr "stop");
    Ok {| choices :=
            [ {| choice_message :=
                   {| message_role := "assistant"; message_content := text |};
                 choice_finish_reason := finish |} ] |}.

(** [count_tokens] on a [str]. *)
Definition count_tokens_str (text : string) : Z :=
  Z.max 1 (len text / 4).

(** What the generator inside [count_tokens] hands to [join] for one
    message; [join] raises [TypeError] on an item that is not a [str]. *)
Definition flat_item (m : message) : result string :=
  match m with
  | MDict _ None => Ok ""
  | MDict _ (Some (CStr s)) => Ok s
  | MDict _ (Some _) => Raise TypeError
  | MObj _ _ _ shown => Ok shown
  end.

Fixpoint flat_items (messages : list message) : result (list string) :=
  match messages with
  | [] => Ok []
  | m :: rest =>
      s ← flat_item m; l ← flat_items rest; Ok (s :: l)
  end.

(** [count_tokens] on a sequence of messages. *)
Definition count_tokens (messages : list message) : result Z :=
  items ← flat_items messages;
  Ok (Z.max 1 (len (join (String (ascii_of_N 10) EmptyString) items) / 4)).

(** [_update_usage]. *)
Definition _update_usage (self : BedrockClaudeChatCompletionClient)
    (delta : RequestUsage) : BedrockClaudeChatCompletionClient :=
  let '(actual, total) := default (usage_zero, usage_zero) (_usage self) in
  {| _model_id := _model_id self;
     _aws_region := _aws_region self;
     _temperature := _temperature self;
     _max_tokens := _max_tokens self;
     _usage := Some (usage_add actual delta, usage_add total delta) |}.

Definition actual_usage (self : BedrockClaudeChatCompletionClient)
    : option RequestUsage := fst <$> _usage self.

Definition total_usage (self : BedrockClaudeChatCompletionClient)
    : option RequestUsage := snd <$> _usage self.

Definition json_sys : message :=
  MDict (Some "system")
    (Some (CStr "You are a system that must output *only* valid JSON. Do not include any additional text.")).

(** The call [self.create_chat_completion(msg_seq, **extra_create_args)]:
    a key [self] or [messages] collides with a positional argument, a key
    [stream] binds the parameter of that name, the rest is [kwargs]. *)
Definition call_with_extra (self : BedrockClaudeChatCompletionClient)
    (vendor : backend) (msg_seq : list message)
    (extra_create_args : gmap string kwval) : result chat_completion :=
  match extra_create_args !! "self", extra_create_args !! "messages" with
  | None, None =>
      create_chat_completion self vendor msg_seq
        (kw_truthy (default (KBool false) (extra_create_args !! "stream")))
        (delete "stream" extra_create_args)
  | _, _ => Raise TypeError
  end.

(** [create].  The outcome is the value returned or the exception raised,
    together with the instance as the call leaves it.  The result is
    [None] where the vendor's text is not a [str]: what [CreateResult]
    does with such a content is decided by [autogen_core], outside these
    files. *)
Definition create (self : BedrockClaudeChatCompletionClient)
    (vendor : backend) (messages : list message) (json_output : bool)
    (extra_create_args : gmap string kwval)
    : option (result CreateResult * BedrockClaudeChatCompletionClient) :=
  let msg_seq := if json_output then json_sys :: messages else messages in
  match call_with_extra self vendor msg_seq extra_create_args with
  | Raise e => Some (Raise e, self)
  | Ok response =>
      match choices response with
      | [] => Some (Raise IndexError, self)
      | c :: _ =>
          match count_tokens messages with
          | Raise e => Some (Raise e, self)
          | Ok prompt =>
              match message_content (choice_message c) with
              | JStr text =>
                  let delta := {| prompt_tokens := prompt;
                                  completion_tokens := count_tokens_str text |} in
                  Some (Ok {| finish_reason := "stop";
                              result_content := text;
                              usage := delta;
                              cached := false |},
                        _update_usage self delta)
              | _ => None
              end
          end
      end
  end.

(** One call of [create] as a caller issues it. *)
Record create_call : Type := {
  call_messages : list message;
  call_json_output : bool;
  call_extra : gmap string kwval
}.

(** A run of calls of [create] on one instance, each of which returns:
    the results in call order and the instance after the last call.
    [None] when some call raises (or leaves the embedding). *)
Fixpoint create_all (self : BedrockClaudeChatCompletionClient)
    (vendor : backend) (calls : list create_call)
    : option (list CreateResult * BedrockClaudeChatCompletionClient) :=
  match calls with
  | [] => Some ([], self)
  | c :: rest =>
      match create self vendor (call_messages c) (call_json_output c) (call_extra c) with
      | Some (Ok r, self') =>
          match create_all self' vendor rest with
          | Some (rs, self'') => Some (r :: rs, self'')
          | None => None
          end
      | _ => None
      end
  end.

(** [_BedrockClaudeConfig]. *)
Record _BedrockClaudeConfig : Type := {
  model_id : string;
  aws_region : string;
  temperature : float;
  max_tokens : Z
}.

(** [ge=0.0, le=1.0] on a bit pattern: the sign bit is clear and the rest
    is at most the pattern of [1.0], or the pattern is that of [-0.0]. *)
Definition in_unit_interval (x : float) : bool :=
  ((x <=? 0x3FF0000000000000) || (x =? 0x8000000000000000))%N.

(** Validation of the schema: [temperature] within [0.0, 1.0] and
    [max_tokens] at least 1; pydantic's [ValidationError] is a
    [ValueError]. *)
Definition validate (cfg : _BedrockClaudeConfig) : result _BedrockClaudeConfig :=
  if in_unit_interval (temperature cfg) && (1 <=? max_tokens cfg)
  then Ok cfg else Raise ValueError.

(** What [_from_config] is given: a [dict], with the keys of the schema
    it has, or an instance of the schema. *)
Inductive config_input : Type :=
| FromDict (model_id : option string) (aws_region : option string)
           (temperature : option float) (max_tokens : option Z)
| FromModel (cfg : _BedrockClaudeConfig).

(** [_BedrockClaudeConfig(keys of the dict)] and [model_validate(config)]. *)
Definition parse_config (config : config_input) : result _BedrockClaudeConfig :=
  match config with
  | FromDict m r t n =>
      validate {| model_id := default "us.anthropic.claude-sonnet-4-20250514-v1:0" m;
                  aws_region := default "us-west-2" r;
                  temperature := default float_zero t;
                  max_tokens := default 1024 n |}
  | FromModel cfg => validate cfg
  end.

(** [__init__]; [boto3] tells whether the import of the SDK succeeded. *)
Definition __init__ (boto3 : bool) (params : _BedrockClaudeConfig)
    : result BedrockClaudeChatCompletionClient :=
  if boto3 then
    Ok {| _model_id := model_id params;
          _aws_region := aws_region params;
          _temperature := temperature params;
          _max_tokens := max_tokens params;
          _usage := None |}
  else Raise RuntimeError.

Definition _from_config (boto3 : bool) (config : config_input)
    : result BedrockClaudeChatCompletionClient :=
  cfg ← parse_config config;
  __init__ boto3 {| model_id := model_id cfg;
                    aws_region := aws_region cfg;
                    temperature := temperature cfg;
                    max_tokens := max_tokens cfg |}.

Definition _to_config (self : BedrockClaudeChatCompletionClient)
    : result _BedrockClaudeConfig :=
  validate {| model_id := _model_id self;
              aws_region := _aws_region self;
              temperature := _temperature self;
              max_tokens := _max_tokens self |}.

(** [remaining_tokens]. *)
Definition remaining_tokens (messages : list message) : result Z :=
  n ← count_tokens messages; Ok (200000 - n).

End Bedrock.

(** ** gemini_client.py *)

Module Gemini.

(** The guidance line every prompt starts with. *)
Definition system_line : string :=
  "system: 請以與使用者輸入相同的語言作答，若使用者使用中文則回答請完全使用中文。若非中文則對應使用者語言。".

Definition str_content (c : content) : string :=
  match c with
  | CStr s => s
  | CList parts => join " " (map str_part parts)
  | CObj shown => shown
  end.

(** One turn of the loop of [_convert_messages_to_prompt]: the line
    [f"{role}: {content}"] is appended to [lines]. *)
Definition prompt_step (lines : list string) (m : message) : list string :=
  let '(role, body) :=
    match m with
    | MDict role body => (default "user" role, default (CStr "") body)
    | MObj role body class_lower shown =>
        (default class_lower role, default (CStr shown) body)
    end in
  lines ++ [ role +:+ ": " +:+ str_content body ].

Definition _convert_messages_to_prompt (messages : list message) : string :=
  join (String (ascii_of_N 10) EmptyString)
       (fold_left prompt_step messages [system_line]).

(** [_GeminiClientConfig]. *)
Record _GeminiClientConfig : Type := {
  model : string;
  api_key : option string;
  temperature : float;
  max_output_tokens : Z
}.

(** The attributes of a client; [_usage] as for the other adapter. *)
Record GeminiChatCompletionClient : Type := {
  _model_name : string;
  _temperature : float;
  _max_output_tokens : Z;
  _usage : option (RequestUsage * RequestUsage)
}.

(** [__init__].  [genai] tells whether the import of the SDK succeeded.
    Next to the instance the call leaves the key it passed to
    [genai.configure], which is the only place the key goes. *)
Definition __init__ (genai : bool) (params : _GeminiClientConfig)
    : result (GeminiChatCompletionClient * option string) :=
  if genai then
    Ok ({| _model_name := model params;
           _temperature := temperature params;
           _max_output_tokens := max_output_tokens params;
           _usage := None |},
        api_key params)
  else Raise RuntimeError.

Definition _from_config (genai : bool) (cfg : _GeminiClientConfig)
    : result (GeminiChatCompletionClient * option string) :=
  __init__ genai {| model := model cfg;
                    api_key := api_key cfg;
                    temperature := temperature cfg;
                    max_output_tokens := max_output_tokens cfg |}.

Definition _to_config (self : GeminiChatCompletionClient) : _GeminiClientConfig :=
  {| model := _model_name self;
     api_key := None;
     temperature := _temperature self;
     max_output_tokens := _max_output_tokens self |}.

(** What the SDK hands back. *)
Record candidate : Type := {
  candidate_finish_reason : string
}.

Record response : Type := {
  text : string;
  candidates : list candidate
}.

Record chunk : Type := {
  chunk_text : string
}.

(** The iterable of a streaming call: the chunks it emits and, if the
    iteration breaks off, the exception it ends with. *)
Record vendor_stream : Type := {
  chunks : list chunk;
  failure : option exn
}.

(** [self._model]: [generate_content] without and with [stream=True], as
    functions of the prompt and the remaining keyword arguments. *)
Record generative_model : Type := {
  generate_content : string -> gmap string kwval -> result response;
  generate_content_stream : string -> gmap string kwval -> vendor_stream
}.

(** A dictionary yielded in streaming mode,
    [{"choices": [{"delta": ..., "index": 0, "finish_reason": ...}]}];
    [delta_content] is [None] for the empty [delta]. *)
Record stream_choice : Type := {
  delta_content : option string;
  index : Z;
  stream_finish_reason : option string
}.

Record fragment : Type := {
  fragment_choices : list stream_choice
}.

Record chat_message : Type := {
  message_role : string;
  message_content : string
}.

Record choice : Type := {
  choice_message : chat_message;
  choice_finish_reason : string
}.

Record chat_completion : Type := {
  choices : list choice
}.

(** How the body of a generator ends: with a [return] (of [None] when it
    falls off the end) or with an exception. *)
Inductive ending : Type :=
| Returned (value : option chat_completion)
| Raised (e : exn).

(** The generator object [create_chat_completion] returns, as what
    iterating it to the end produces: the values yielded, in order, and
    the way the body ends. *)
Record generator : Type := {
  yields : list fragment;
  finish : ending
}.

Definition chunk_fragment (c : chunk) : fragment :=
  {| fragment_choices :=
       [ {| delta_content := Some (chunk_text c);
            index := 0;
            stream_finish_reason := None |} ] |}.

Definition end_of_stream : fragment :=
  {| fragment_choices :=
       [ {| delta_content := None;
            index := 0;
            stream_finish_reason := Some "stop" |} ] |}.

(** One turn of [for chunk in gemini_stream: yield ...]. *)
Definition stream_step (yielded : list fragment) (c : chunk) : list fragment :=
  yielded ++ [chunk_fragment c].

Definition generation_kwargs (self : GeminiChatCompletionClient)
    (kwargs : gmap string kwval) : gmap string kwval :=
  {[ "temperature" := default (KFloat (_temperature self)) (kwargs !! "temperature");
     "max_output_tokens" :=
       default (KInt (_max_output_tokens self)) (kwargs !! "max_output_tokens") ]}.

Definition create_chat_completion (self : GeminiChatCompletionClient)
    (sdk : generative_model) (messages : list message) (stream : bool)
    (kwargs : gmap string kwval) : generator :=
  let prompt := _convert_messages_to_prompt messages in
  if stream then
    let gemini_stream :=
      generate_content_stream sdk prompt (generation_kwargs self kwargs) in
    let yielded := fold_left stream_step (chunks gemini_stream) [] in
    match failure gemini_stream with
    | Some e => {| yields := yielded; finish := Raised e |}
    | None => {| yields := yielded ++ [end_of_stream]; finish := Returned None |}
    end
  else
    match generate_content sdk prompt (generation_kwargs self kwargs) with
    | Raise e => {| yields := []; finish := Raised e |}
    | Ok r =>
        {| yields := [];
           finish := Returned (Some
             {| choices :=
                  [ {| choice_message :=
                         {| message_role := "assistant";
                            message_content := text r |};
                       choice_finish_reason :=
                         match candidates r with
                         | c :: _ => candidate_finish_reason c
                         | [] => "stop"
                         end |} ] |}) |}
    end.

(** The two estimators at the end of [count_tokens]: [tiktoken] gives the
    number of tokens of the text, or nothing when importing or running
    it raises, in which case the words are counted. *)
Definition estimate (tiktoken : string -> option Z) (text : string) : Z :=
  match tiktoken text with
  | Some n => n
  | None => split_len text
  end.

(** [count_tokens] on a [str]. *)
Definition count_tokens_str (tiktoken : string -> option Z) (messages : string) : Z :=
  if str_truthy messages then estimate tiktoken messages else 0.

(** [count_tokens] on a sequence of messages. *)
Definition count_tokens (tiktoken : string -> option Z) (messages : list message) : Z :=
  match messages with
  | [] => 0
  | _ :: _ => estimate tiktoken (_convert_messages_to_prompt messages)
  end.

(** [_update_usage]. *)
Definition _update_usage (self : GeminiChatCompletionClient)
    (delta : RequestUsage) : GeminiChatCompletionClient :=
  let '(actual, total) := default (usage_zero, usage_zero) (_usage self) in
  {| _model_name := _model_name self;
     _temperature := _temperature self;
     _max_output_tokens := _max_output_tokens self;
     _usage := Some (usage_add actual delta, usage_add total delta) |}.

(** [actual_usage] and [total_usage] read the attribute, which does not
    exist before the first update. *)
Definition actual_usage (self : GeminiChatCompletionClient) : result RequestUsage :=
  match _usage self with
  | Some (actual, _) => Ok actual
  | None => Raise AttributeError
  end.

Definition total_usage (self : GeminiChatCompletionClient) : result RequestUsage :=
  match _usage self with
  | Some (_, total) => Ok total
  | None => Raise AttributeError
  end.

(** [create]: the value returned or the exception raised, and the
    instance as the call leaves it. *)
Definition create (self : GeminiChatCompletionClient) (sdk : generative_model)
    (tiktoken : string -> option Z) (messages : list message)
    (extra_create_args : gmap string kwval)
    : result CreateResult * GeminiChatCompletionClient :=
  let prompt := _convert_messages_to_prompt messages in
  match generate_content sdk prompt extra_create_args with
  | Raise e => (Raise e, self)
  | Ok r =>
      let content := text r in
      let delta := {| prompt_tokens := count_tokens_str tiktoken prompt;
                      completion_tokens := count_tokens_str tiktoken content |} in
      (Ok {| finish_reason := "stop";
             result_content := content;
             usage := delta;
             cached := false |},
       _update_usage self delta)
  end.

Record create_call : Type := {
  call_messages : list message;
  call_extra : gmap string kwval
}.

(** A run of calls of [create] on one instance, each of which returns. *)
Fixpoint create_all (self : GeminiChatCompletionClient) (sdk : generative_model)
    (tiktoken : string -> option Z) (calls : list create_call)
    : option (list CreateResult * GeminiChatCompletionClient) :=
  match calls with
  | [] => Some ([], self)
  | c :: rest =>
      match create self sdk tiktoken (call_messages c) (call_extra c) with
      | (Ok r, self') =>
          match create_all self' sdk tiktoken rest with
          | Some (rs, self'') => Some (r :: rs, self'')
          | None => None
          end
      | (Raise _, _) => None
      end
  end.

(** [remaining_tokens] on a sequence of messages. *)
Definition remaining_tokens (tiktoken : string -> option Z) (messages : list message) : Z :=
  8192 - count_tokens tiktoken messages.

End Gemini.

(** ** The default executor of the event loop *)

Module Executor.

Section Pool.

Context {A : Type}.

(** A thread pool as [loop.run_in_executor(None, f)] sees it: the jobs
    submitted and not yet run, oldest first, each under the number of its
    future; the futures already resolved; the next free number. *)
Record pool : Type := {
  waiting : list (nat * (unit -> A));
  resolved : gmap nat A;
  next_future : nat
}.

(** [loop.run_in_executor(None, f)]: the job is queued and its future
    handed back. *)
Definition run_in_executor (p : pool) (f : unit -> A) : nat * pool :=
  (next_future p,
   {| waiting := waiting p ++ [(next_future p, f)];
      resolved := resolved p;
      next_future := S (next_future p) |}).

(** The workers take the jobs in order; running a job resolves its future
    with what the job returns. *)
Fixpoint work (jobs : list (nat * (unit -> A))) (done : gmap nat A) : gmap nat A :=
  match jobs with
  | [] => done
  | (fut, f) :: rest => work rest (<[fut := f tt]> done)
  end.

(** [await fut]: the caller resumes once the future is resolved, with its
    value. *)
Definition await (p : pool) (fut : nat) : option A * pool :=
  let done := work (waiting p) (resolved p) in
  (done !! fut,
   {| waiting := []; resolved := done; next_future := next_future p |}).

End Pool.

Arguments pool A : clear implicits.

(** [acreate_chat_completion] of the managed-endpoint adapter. *)
Definition bedrock_acreate_chat_completion
    (p : pool (result Bedrock.chat_completion))
    (self : Bedrock.BedrockClaudeChatCompletionClient) (vendor : Bedrock.backend)
    (messages : list message) (stream : bool) (kwargs : gmap string kwval)
    : option (result Bedrock.chat_completion) * pool (result Bedrock.chat_completion) :=
  let '(fut, p') :=
    run_in_executor p
      (fun _ => Bedrock.create_chat_completion self vendor messages stream kwargs) in
  await p' fut.

(** [acreate_chat_completion] of the generative-SDK adapter. *)
Definition gemini_acreate_chat_completion
    (p : pool Gemini.generator)
    (self : Gemini.GeminiChatCompletionClient) (sdk : Gemini.generative_model)
    (messages : list message) (stream : bool) (kwargs : gmap string kwval)
    : option Gemini.generator * pool Gemini.generator :=
  let '(fut, p') :=
    run_in_executor p
      (fun _ => Gemini.create_chat_completion self sdk messages stream kwargs) in
  await p' fut.

End Executor.

(** ** Concrete inputs used further down *)

Module Examples.

Import Launcher.

Definition outside_kwargs : call_kwargs :=
  {| kw_bind_dir := Some "/workspace";
     kw_image := None;
     kw_playwright_port := None;
     kw_playwright_websocket_path := Some (Some "tok");
     kw_novnc_port := None;
     kw_inside_docker := Some false;
     kw_network_name := Some "lab-net";
     kw_other := [] |}.

Definition example_env : gmap string string :=
  {[ "MUI_EXTERNAL_HOST" := "example.com" ]}.

Definition outside_browser : VncDockerPlaywrightBrowser :=
  __init__ {| p_bind_dir := "/workspace";
              p_image := "magentic-ui-vnc-browser";
              p_playwright_port := 37367;
              p_playwright_websocket_path := Some "tok";
              p_novnc_port := 6080;
              p_inside_docker := false;
              p_network_name := "lab-net" |} example_env 0.

(** A client with the default parameters and a vendor that always answers
    ["hi"] in a body without [stop_reason]. *)
Definition bedrock_client : Bedrock.BedrockClaudeChatCompletionClient :=
  {| Bedrock._model_id := "us.anthropic.claude-sonnet-4-20250514-v1:0";
     Bedrock._aws_region := "us-west-2";
     Bedrock._temperature := float_zero;
     Bedrock._max_tokens := 1024;
     Bedrock._usage := None |}.

Definition terse_body : json :=
  JObj [("content", JArr [JObj [("type", JStr "text"); ("text", JStr "hi")]])].

Definition terse_vendor : Bedrock.backend := fun _ _ => Ok terse_body.

(** A vendor whose body has an empty list of content blocks. *)
Definition empty_body : json :=
  JObj [("content", JArr []); ("stop_reason", JStr "end_turn")].

Definition empty_vendor : Bedrock.backend := fun _ _ => Ok empty_body.

Definition hello : message := MDict (Some "user") (Some (CStr "hello")).

Definition two_parts : message :=
  MDict (Some "user") (Some (CList [PStr "look"; PStr "here"])).

Definition bedrock_call : Bedrock.create_call :=
  {| Bedrock.call_messages := [hello];
     Bedrock.call_json_output := false;
     Bedrock.call_extra := ∅ |}.

(** What that call returns against [terse_vendor], and the client after
    two such calls. *)
Definition bedrock_result : CreateResult :=
  {| finish_reason := "stop";
     result_content := "hi";
     usage := {| prompt_tokens := 1; completion_tokens := 1 |};
     cached := false |}.

Definition served_twice : Bedrock.BedrockClaudeChatCompletionClient :=
  {| Bedrock._model_id := "us.anthropic.claude-sonnet-4-20250514-v1:0";
     Bedrock._aws_region := "us-west-2";
     Bedrock._temperature := float_zero;
     Bedrock._max_tokens := 1024;
     Bedrock._usage :=
       Some ({| prompt_tokens := 2; completion_tokens := 2 |},
             {| prompt_tokens := 2; completion_tokens := 2 |}) |}.

(** A client of the SDK with the default parameters, an SDK that answers
    every prompt with the same text and streams it in two chunks, and a
    tokenizer that is not installed. *)
Definition gemini_client : Gemini.GeminiChatCompletionClient :=
  {| Gemini._model_name := "gemini-2.0-flash";
     Gemini._temperature := float_zero;
     Gemini._max_output_tokens := 1024;
     Gemini._usage := None |}.

Definition echo_sdk : Gemini.generative_model :=
  {| Gemini.generate_content := fun _ _ =>
       Ok {| Gemini.text := "good day"; Gemini.candidates := [] |};
     Gemini.generate_content_stream := fun _ _ =>
       {| Gemini.chunks := [ {| Gemini.chunk_text := "good" |};
                             {| Gemini.chunk_text := " day" |} ];
          Gemini.failure := None |} |}.

Definition no_tiktoken : string -> option Z := fun _ => None.

Definition gemini_call : Gemini.create_call :=
  {| Gemini.call_messages := [hello]; Gemini.call_extra := ∅ |}.

(** The client the constructor builds for the model [gemini-2.5-flash],
    whatever key it is given. *)
Definition keyed_client : Gemini.GeminiChatCompletionClient :=
  {| Gemini._model_name := "gemini-2.5-flash";
     Gemini._temperature := float_zero;
     Gemini._max_output_tokens := 1024;
     Gemini._usage := None |}.

(** A configuration for that model with a key. *)
Definition keyed_config : Gemini._GeminiClientConfig :=
  {| Gemini.model := "gemini-2.5-flash";
     Gemini.api_key := Some "key-one";
     Gemini.temperature := float_zero;
     Gemini.max_output_tokens := 1024 |}.

End Examples.

(** ** The vocabulary of the properties *)

Module Terms.

(** What [_update_usage] does to the pair of counters of either adapter. *)
Definition bump (u : option (RequestUsage * RequestUsage)) (delta : RequestUsage)
    : option (RequestUsage * RequestUsage) :=
  let '(actual, total) := default (usage_zero, usage_zero) u in
  Some (usage_add actual delta, usage_add total delta).

(** The sum of a list of per-call estimates. *)
Definition usage_sum (deltas : list RequestUsage) : RequestUsage :=
  fold_right usage_add usage_zero deltas.

(** The role and the content a message comes with. *)
Definition role_of (m : message) : option string :=
  match m with
  | MDict role _ => role
  | MObj role _ _ _ => role
  end.

Definition content_of (m : message) : option content :=
  match m with
  | MDict _ body => body
  | MObj _ body _ _ => body
  end.

(** A content as the request carries it: a list is replaced by its
    elements joined with single spaces, anything else is kept. *)
Definition joined (c : content) : content :=
  match c with
  | CList parts => CStr (join " " (map str_part parts))
  | _ => c
  end.

(** The entry a message becomes; where the role or the content is
    missing, the default of the lookup stands in. *)
Definition entry_of (m : message) : Bedrock.entry :=
  {| Bedrock.entry_role := default "user" (role_of m);
     Bedrock.entry_content :=
       joined (default (CStr match m with MDict _ _ => "" | MObj _ _ _ shown => shown end)
                       (content_of m)) |}.

(** The text of the first content block of a response body, if the body
    has one. *)
Definition first_block_text (body : json) : option json :=
  match body with
  | JObj fields =>
      match field "content" fields with
      | Some (JArr (JObj block :: _)) => field "text" block
      | _ => None
      end
  | _ => None
  end.

(** The stop indicator of a response body, if the body has one. *)
Definition stop_reason_of (body : json) : option json :=
  match body with
  | JObj fields => field "stop_reason" fields
  | _ => None
  end.

(** The finish reason and the content of a fragment of a stream. *)
Definition fragment_finish (f : Gemini.fragment) : option string :=
  match Gemini.fragment_choices f with
  | c :: _ => Gemini.stream_finish_reason c
  | [] => None
  end.

Definition fragment_content (f : Gemini.fragment) : option string :=
  match Gemini.fragment_choices f with
  | c :: _ => Gemini.delta_content c
  | [] => None
  end.

(** The usage of a result is the pair of estimates of its call: for the
    managed-endpoint adapter, of the messages and of the text returned; for
    the SDK adapter, of the prompt and of the text returned. *)
Definition bedrock_estimated (c : Bedrock.create_call) (r : CreateResult) : Prop :=
  Bedrock.count_tokens (Bedrock.call_messages c) = Ok (prompt_tokens (usage r)) /\
  completion_tokens (usage r) = Bedrock.count_tokens_str (result_content r).

Definition gemini_estimated (tiktoken : string -> option Z)
    (c : Gemini.create_call) (r : CreateResult) : Prop :=
  prompt_tokens (usage r) =
    Gemini.count_tokens_str tiktoken
      (Gemini._convert_messages_to_prompt (Gemini.call_messages c)) /\
  completion_tokens (usage r) = Gemini.count_tokens_str tiktoken (result_content r).

(** A lower-case hexadecimal digit. *)
Definition is_hex_digit (c : ascii) : bool :=
  let n := N_of_ascii c in
  (((48 <=? n) && (n <=? 57)) || ((97 <=? n) && (n <=? 102)))%N.

(** A [dict] message whose content is there and is not a [str]. *)
Definition content_not_str (m : message) : Prop :=
  match m with
  | MDict _ (Some (CStr _)) => False
  | MDict _ (Some _) => True
  | _ => False
  end.

(** The line of the prompt a message becomes. *)
Definition line_of (m : message) : string :=
  match m with
  | MDict role body =>
      default "user" role +:+ ": " +:+ Gemini.str_content (default (CStr "") body)
  | MObj role body class_lower shown =>
      default class_lower role +:+ ": " +:+ Gemini.str_content (default (CStr shown) body)
  end.

(** The two counters of an instance agree. *)
Definition counters_agree (u : option (RequestUsage * RequestUsage)) : Prop :=
  match u with
  | None => True
  | Some (actual, total) => actual = total
  end.

(** Field-wise order on usages. *)
Definition usage_le (u v : RequestUsage) : Prop :=
  prompt_tokens u <= prompt_tokens v /\ completion_tokens u <= completion_tokens v.

(** The counters of an instance, zero while it has none. *)
Definition counters (u : option (RequestUsage * RequestUsage))
    : RequestUsage * RequestUsage :=
  default (usage_zero, usage_zero) u.

(** Every character of a string passes a test. *)
Fixpoint all_chars (test : ascii -> bool) (s : string) : bool :=
  match s with
  | EmptyString => true
  | String c rest => test c && all_chars test rest
  end.

(** The integer a decimal numeral denotes. *)
Definition parse_int (s : string) : option Z :=
  Z.of_int <$> NilZero.int_of_string s.

(** The first value of a list that is there and not empty. *)
Fixpoint first_nonempty (values : list (option string)) : option string :=
  match values with
  | [] => None
  | Some (String c rest) :: _ => Some (String c rest)
  | _ :: others => first_nonempty others
  end.

(** The variables that can name the external host, in the order they are
    consulted. *)
Definition host_variables : list string :=
  ["MUI_EXTERNAL_HOST"; "PUBLIC_HOST"; "PUBLIC_IP"; "HOST_IP"].

(** An instance with another network name. *)
Definition with_network (b : Launcher.VncDockerPlaywrightBrowser) (name : string)
    : Launcher.VncDockerPlaywrightBrowser :=
  {| Launcher._bind_dir := Launcher._bind_dir b;
     Launcher._image := Launcher._image b;
     Launcher._playwright_port := Launcher._playwright_port b;
     Launcher._novnc_port := Launcher._novnc_port b;
     Launcher._playwright_websocket_path := Launcher._playwright_websocket_path b;
     Launcher._inside_docker := Launcher._inside_docker b;
     Launcher._network_name := name;
     Launcher._hostname := Launcher._hostname b;
     Launcher._docker_name := Launcher._docker_name b |}.

(** A configuration with another websocket path. *)
Definition with_path (cfg : Launcher.VncDockerPlaywrightBrowserConfig) (path : string)
    : Launcher.VncDockerPlaywrightBrowserConfig :=
  {| Launcher.bind_dir := Launcher.bind_dir cfg;
     Launcher.image := Launcher.image cfg;
     Launcher.playwright_port := Launcher.playwright_port cfg;
     Launcher.novnc_port := Launcher.novnc_port cfg;
     Launcher.playwright_websocket_path := Some path;
     Launcher.inside_docker := Launcher.inside_docker cfg |}.

(** A client of the managed endpoint as the constructor leaves it: the
    same parameters, no counters yet. *)
Definition bedrock_fresh (self : Bedrock.BedrockClaudeChatCompletionClient)
    : Bedrock.BedrockClaudeChatCompletionClient :=
  {| Bedrock._model_id := Bedrock._model_id self;
     Bedrock._aws_region := Bedrock._aws_region self;
     Bedrock._temperature := Bedrock._temperature self;
     Bedrock._max_tokens := Bedrock._max_tokens self;
     Bedrock._usage := None |}.

(** The same for a client of the SDK. *)
Definition gemini_fresh (self : Gemini.GeminiChatCompletionClient)
    : Gemini.GeminiChatCompletionClient :=
  {| Gemini._model_name := Gemini._model_name self;
     Gemini._temperature := Gemini._temperature self;
     Gemini._max_output_tokens := Gemini._max_output_tokens self;
     Gemini._usage := None |}.

(** A configuration of the SDK client without its key. *)
Definition without_key (cfg : Gemini._GeminiClientConfig) : Gemini._GeminiClientConfig :=
  {| Gemini.model := Gemini.model cfg;
     Gemini.api_key := None;
     Gemini.temperature := Gemini.temperature cfg;
     Gemini.max_output_tokens := Gemini.max_output_tokens cfg |}.

(** The messages [create] of the managed-endpoint adapter sends for the
    messages it is given. *)
Definition sent_messages (json_output : bool) (messages : list message) : list message :=
  if json_output then Bedrock.json_sys :: messages else messages.

(** The line separator of the prompt. *)
Definition newline : string := String (ascii_of_N 10) EmptyString.

End Terms.

Import Terms.

(** * Properties *)

(** ** Strings *)

Arguments String.append !s1 s2 : simpl nomatch.

Module PyFacts.

Lemma length_append (s t : string) :
  String.length (s +:+ t) = (String.length s + String.length t)%nat.
Proof. induction s as [|c s IH]; simpl; [reflexivity | now rewrite IH]. Qed.

Lemma append_assoc (s t u : string) : (s +:+ t) +:+ u = s +:+ (t +:+ u).
Proof. induction s as [|c s IH]; simpl; [reflexivity | now rewrite IH]. Qed.

Lemma nonempty_truthy (s : string) : (0 < String.length s)%nat -> str_truthy s = true.
Proof. destruct s; simpl; [lia | reflexivity]. Qed.

End PyFacts.

(** ** The launcher *)

Module LauncherSpec.

Import PyFacts Launcher Examples.

Lemma hex_digits_length (n : nat) : forall v : N, String.length (hex_digits n v) = n.
Proof.
  induction n as [|n IH]; intros v; simpl; [reflexivity|].
  rewrite length_append, IH. simpl. lia.
Qed.

(** [secrets.token_hex(16)] is 32 characters long, hence truthy. *)
Lemma token_hex_truthy (rnd : N) : str_truthy (token_hex 16 rnd) = true.
Proof.
  apply nonempty_truthy. unfold token_hex. rewrite hex_digits_length. lia.
Qed.

Lemma new_inv kw env rnd b :
  new kw env rnd = Ok b ->
  exists p, bind_signature kw = Ok p /\ b = __init__ p env rnd.
Proof.
  unfold new. destruct (bind_signature kw) as [p|e]; simpl; intros H.
  - exists p. split; [reflexivity | congruence].
  - discriminate.
Qed.

Lemma init_path_truthy p env rnd :
  str_truthy (_playwright_websocket_path (__init__ p env rnd)) = true.
Proof.
  simpl. destruct (p_playwright_websocket_path p) as [s|].
  - destruct (str_truthy s) eqn:E; [exact E | apply token_hex_truthy].
  - apply token_hex_truthy.
Qed.

(** The websocket path of an instance is never empty. *)
Lemma instance_path_truthy b :
  instance b -> str_truthy (_playwright_websocket_path b) = true.
Proof.
  induction 1 as [kw env rnd b Hnew | b env pw novnc _ IH].
  - destruct (new_inv _ _ _ _ Hnew) as (p & _ & ->). apply init_path_truthy.
  - exact IH.
Qed.

(** After the constructor as after a regeneration, the host name is
    [resolve_hostname] of the instance's own flag, path and viewer port. *)
Lemma last_env_hostname env b :
  last_env env b ->
  _hostname b =
  resolve_hostname env (_inside_docker b) (_playwright_websocket_path b) (_novnc_port b).
Proof.
  destruct 1 as [kw rnd b Hnew | b pw novnc _].
  - destruct (new_inv _ _ _ _ Hnew) as (p & _ & ->). reflexivity.
  - reflexivity.
Qed.

Lemma mui_external_host_wins env h :
  getenv env "MUI_EXTERNAL_HOST" = Some h -> str_truthy h = true ->
  or_str (external_host_env env) "127.0.0.1" = h.
Proof.
  intros Hget Hh. unfold external_host_env, or_opt at 1.
  rewrite Hget. simpl. rewrite Hh. simpl. rewrite Hh. reflexivity.
Qed.

(** C5.  An instance inside docker has the host name
    [magentic-ui-vnc-browser_<token>_<viewer port>], whatever the
    environment holds.  An instance outside docker whose host name was
    computed with [MUI_EXTERNAL_HOST=example.com] has the viewer address
    [http://example.com:<novnc_port>/vnc.html] and the browser address
    [ws://example.com:<playwright_port>/<token>]. *)
Theorem hostname_and_addresses (env : gmap string string) (b : VncDockerPlaywrightBrowser) :
  last_env env b ->
  (_inside_docker b = true ->
   _hostname b =
   "magentic-ui-vnc-browser_" +:+ _playwright_websocket_path b +:+ "_"
     +:+ str_int (_novnc_port b)) /\
  (_inside_docker b = false ->
   getenv env "MUI_EXTERNAL_HOST" = Some "example.com" ->
   vnc_address b = "http://example.com:" +:+ str_int (_novnc_port b) +:+ "/vnc.html" /\
   browser_address b =
   "ws://example.com:" +:+ str_int (_playwright_port b) +:+ "/"
     +:+ _playwright_websocket_path b).
Proof.
  intros Hb. pose proof (last_env_hostname env b Hb) as Hhost. split.
  - intros Hin. rewrite Hhost, Hin. reflexivity.
  - intros Hout Hget. unfold vnc_address, browser_address.
    rewrite Hhost, Hout. unfold resolve_hostname.
    rewrite (mui_external_host_wins env "example.com" Hget eq_refl).
    split; reflexivity.
Qed.

Lemma outside_browser_new : new outside_kwargs example_env 0 = Ok outside_browser.
Proof. reflexivity. Qed.

Lemma hostname_and_addresses_witness :
  vnc_address outside_browser = "http://example.com:6080/vnc.html" /\
  browser_address outside_browser = "ws://example.com:37367/tok".
Proof.
  apply (hostname_and_addresses example_env outside_browser).
  - exact (last_env_new example_env outside_kwargs 0%N outside_browser outside_browser_new).
  - reflexivity.
  - reflexivity.
Defined.

(** C6.  Regenerating the ports stores the two probed ports, recomputes
    the host name from the new viewer port, so that both addresses are
    built from the new ports and the old token; the token, the bind
    directory, the image, the docker flag and the network name stay. *)
Theorem regenerate_ports (b : VncDockerPlaywrightBrowser) (env : gmap string string)
    (pw novnc : Z) :
  let b' := _generate_new_browser_address b env pw novnc in
  _playwright_port b' = pw /\
  _novnc_port b' = novnc /\
  _hostname b' =
    resolve_hostname env (_inside_docker b) (_playwright_websocket_path b) novnc /\
  browser_address b' =
    "ws://" +:+ _hostname b' +:+ ":" +:+ str_int pw +:+ "/"
      +:+ _playwright_websocket_path b /\
  vnc_address b' = "http://" +:+ _hostname b' +:+ ":" +:+ str_int novnc +:+ "/vnc.html" /\
  _docker_name b' = container_name (_playwright_websocket_path b) novnc /\
  _playwright_websocket_path b' = _playwright_websocket_path b /\
  _bind_dir b' = _bind_dir b /\
  _image b' = _image b /\
  _inside_docker b' = _inside_docker b /\
  _network_name b' = _network_name b.
Proof. intros b'. subst b'. repeat split. Qed.

(** The addresses after a regeneration, inside docker, written out. *)
Lemma regenerate_inside_docker b env pw novnc :
  _inside_docker b = true ->
  let b' := _generate_new_browser_address b env pw novnc in
  vnc_address b' =
    "http://magentic-ui-vnc-browser_" +:+ _playwright_websocket_path b +:+ "_"
      +:+ str_int novnc +:+ ":" +:+ str_int novnc +:+ "/vnc.html".
Proof.
  intros Hin b'. subst b'. unfold vnc_address. simpl. rewrite Hin. simpl.
  unfold container_name. simpl. rewrite !append_assoc. reflexivity.
Qed.

(** Outside docker the host name is the first non-empty variable of the
    chain, and the loopback address when there is none. *)
Lemma hostname_outside_docker kw env rnd b :
  new kw env rnd = Ok b -> _inside_docker b = false ->
  _hostname b = or_str (external_host_env env) "127.0.0.1".
Proof.
  intros Hnew Hout.
  rewrite (last_env_hostname env b (last_env_new env kw rnd b Hnew)), Hout.
  reflexivity.
Qed.

Lemma external_host_env_cases env :
  let chain := ["MUI_EXTERNAL_HOST"; "PUBLIC_HOST"; "PUBLIC_IP"; "HOST_IP"] in
  or_str (external_host_env env) "127.0.0.1" =
  match filter (fun o => opt_truthy o = true) (map (getenv env) chain) with
  | Some h :: _ => h
  | _ => "127.0.0.1"
  end.
Proof.
  unfold external_host_env, or_opt, or_str. simpl.
  repeat match goal with
  | |- context [getenv env ?k] => destruct (getenv env k) as [[|? ?]|]; simpl
  end; reflexivity.
Qed.

(** No keyword outside the signature gets past the constructor. *)
Lemma unexpected_keyword kw env rnd :
  kw_other kw <> [] -> new kw env rnd = Raise TypeError.
Proof.
  unfold new, bind_signature. destruct (kw_other kw); [congruence | reflexivity].
Qed.

(** C7.  The call
    [VncDockerPlaywrightBrowser(bind_dir="/workspace", inside_docker=False,
     external_host="host.example.org")]
    raises [TypeError]: the constructor has no parameter for an external
    host name, so the first rank of the resolution order cannot be used. *)
Theorem external_host_keyword_raises :
  new {| kw_bind_dir := Some "/workspace";
         kw_image := None;
         kw_playwright_port := None;
         kw_playwright_websocket_path := None;
         kw_novnc_port := None;
         kw_inside_docker := Some false;
         kw_network_name := None;
         kw_other := [("external_host", "host.example.org")] |} ∅ 0
  = Raise TypeError.
Proof. reflexivity. Qed.

(** C9.  Rebuilding an instance from its own configuration keeps the bind
    directory, the image, both ports, the websocket path and the docker
    flag, and always yields the network name [my-network]. *)
Theorem config_round_trip (b : VncDockerPlaywrightBrowser) (env : gmap string string)
    (rnd : N) :
  instance b ->
  exists b',
    _from_config (_to_config b) env rnd = Ok b' /\
    _bind_dir b' = _bind_dir b /\
    _image b' = _image b /\
    _playwright_port b' = _playwright_port b /\
    _novnc_port b' = _novnc_port b /\
    _playwright_websocket_path b' = _playwright_websocket_path b /\
    _inside_docker b' = _inside_docker b /\
    _network_name b' = "my-network".
Proof.
  intros Hb. pose proof (instance_path_truthy b Hb) as Hpath.
  eexists. split; [reflexivity|].
  simpl. rewrite Hpath. repeat split.
Qed.

Lemma config_round_trip_witness :
  exists b',
    _from_config (_to_config outside_browser) ∅ 0 = Ok b' /\
    _bind_dir b' = "/workspace" /\
    _image b' = "magentic-ui-vnc-browser" /\
    _playwright_port b' = 37367 /\
    _novnc_port b' = 6080 /\
    _playwright_websocket_path b' = "tok" /\
    _inside_docker b' = false /\
    _network_name b' = "my-network".
Proof.
  apply (config_round_trip outside_browser ∅ 0%N).
  exact (instance_new outside_kwargs example_env 0%N outside_browser outside_browser_new).
Defined.

(** The network name of the original is lost on the way. *)
Lemma network_name_not_restored :
  exists b',
    _from_config (_to_config outside_browser) example_env 0 = Ok b' /\
    _network_name outside_browser = "lab-net" /\
    _network_name b' = "my-network".
Proof. eexists. repeat split. Qed.

End LauncherSpec.

(** ** Usage counters *)

Module UsageFacts.

Lemma usage_add_zero_l u : usage_add usage_zero u = u.
Proof. destruct u as [p c]. unfold usage_add. simpl. f_equal. Qed.

Lemma usage_add_zero_r u : usage_add u usage_zero = u.
Proof. destruct u as [p c]. unfold usage_add. simpl. f_equal; lia. Qed.

Lemma usage_add_assoc u v w : usage_add (usage_add u v) w = usage_add u (usage_add v w).
Proof. unfold usage_add. simpl. f_equal; lia. Qed.

Lemma bump_all deltas :
  forall actual total,
    fold_left bump deltas (Some (actual, total)) =
    Some (usage_add actual (usage_sum deltas), usage_add total (usage_sum deltas)).
Proof.
  induction deltas as [|d rest IH]; intros actual total; simpl.
  - now rewrite !usage_add_zero_r.
  - unfold bump at 2. simpl. rewrite IH, !usage_add_assoc. reflexivity.
Qed.

(** Starting without counters, after at least one update both counters
    hold the sum of all the deltas. *)
Lemma bump_all_fresh d deltas :
  fold_left bump (d :: deltas) None =
  Some (usage_sum (d :: deltas), usage_sum (d :: deltas)).
Proof.
  simpl. unfold bump at 2. simpl. rewrite bump_all, !usage_add_zero_l. reflexivity.
Qed.

End UsageFacts.

(** ** The managed-endpoint adapter *)

Module BedrockSpec.

Import Bedrock Examples.

Lemma convert_step_entry converted m :
  convert_step converted m = converted ++ [entry_of m].
Proof. destruct m as [role body | role body cl shown]; reflexivity. Qed.

Lemma convert_messages_from messages :
  forall converted,
    fold_left convert_step messages converted = converted ++ map entry_of messages.
Proof.
  induction messages as [|m rest IH]; intros converted; simpl.
  - now rewrite app_nil_r.
  - rewrite IH, convert_step_entry, <- app_assoc. reflexivity.
Qed.

Lemma convert_messages_map messages :
  _convert_messages messages = map entry_of messages.
Proof. unfold _convert_messages. now rewrite convert_messages_from. Qed.

(** C2.  The message list of the request has one entry per input message,
    in order; the entry has the role of the message and its content, a
    list-valued content being joined with single spaces. *)
Theorem request_messages_normalised (self : BedrockClaudeChatCompletionClient)
    (messages : list message) (kwargs : gmap string kwval) :
  let sent := payload_messages (build_payload self messages kwargs) in
  length sent = length messages /\
  forall (i : nat) (m : message),
    nth_error messages i = Some m ->
    exists e,
      nth_error sent i = Some e /\
      (forall role, role_of m = Some role -> entry_role e = role) /\
      (forall parts, content_of m = Some (CList parts) ->
         entry_content e = CStr (join " " (map str_part parts))) /\
      (forall c, content_of m = Some c -> (forall parts, c <> CList parts) ->
         entry_content e = c).
Proof.
  simpl. rewrite convert_messages_map. split; [apply length_map|].
  intros i m Hm. exists (entry_of m). split.
  - rewrite nth_error_map, Hm. reflexivity.
  - unfold entry_of. repeat split.
    + intros role ->. reflexivity.
    + intros parts ->. reflexivity.
    + intros c -> Hc. destruct c; simpl; try reflexivity. now destruct (Hc parts).
Qed.

Lemma assistant_text_present body t :
  first_block_text body = Some t -> assistant_text body = Ok t.
Proof.
  unfold first_block_text, assistant_text.
  destruct body as [| | | | |items|fields]; try discriminate. simpl.
  destruct (field "content" fields) as [[| | | | |[|[| | | | | |block] rest]|]|];
    try discriminate.
  simpl. intros ->. reflexivity.
Qed.

Lemma assistant_text_missing body :
  first_block_text body = None -> exists e, assistant_text body = Raise e.
Proof.
  unfold first_block_text, assistant_text.
  destruct body as [| | | | |items|fields]; simpl; eauto.
  destruct (field "content" fields) as [blocks|]; simpl; eauto.
  destruct blocks as [| | | |s|items|fs]; simpl; eauto.
  - destruct (first_char s); simpl; eauto.
  - destruct items as [|first rest]; simpl; eauto.
    destruct first; simpl; eauto.
    intros ->. eauto.
Qed.

Lemma get_stop_reason body t :
  first_block_text body = Some t ->
  get body "stop_reason" (JStr "stop") = Ok (default (JStr "stop") (stop_reason_of body)).
Proof.
  destruct body; simpl; try discriminate. reflexivity.
Qed.

(** C8, as the code has it.  A body without the text of a first content
    block makes the call raise; with the text [t] the call returns [t]
    and, as finish reason, the body's [stop_reason] when it has one and
    ["stop"] when it has none. *)
Theorem response_parsing (self : BedrockClaudeChatCompletionClient) (vendor : backend)
    (messages : list message) (kwargs : gmap string kwval) (body : json) :
  vendor (_model_id self) (build_payload self messages kwargs) = Ok body ->
  (first_block_text body = None ->
   exists e, create_chat_completion self vendor messages false kwargs = Raise e) /\
  (forall t, first_block_text body = Some t ->
   create_chat_completion self vendor messages false kwargs =
   Ok {| choices :=
           [ {| choice_message := {| message_role := "assistant"; message_content := t |};
                choice_finish_reason :=
                  default (JStr "stop") (stop_reason_of body) |} ] |}).
Proof.
  intros Hvendor. unfold create_chat_completion. rewrite Hvendor. split.
  - intros Hnone. destruct (assistant_text_missing body Hnone) as [e He].
    exists e. simpl. rewrite He. reflexivity.
  - intros t Ht. simpl.
    rewrite (assistant_text_present body t Ht). simpl.
    rewrite (get_stop_reason body t Ht). reflexivity.
Qed.

Lemma request_messages_normalised_witness :
  nth_error (payload_messages (build_payload bedrock_client [hello; two_parts] ∅)) 1
  = Some {| entry_role := "user"; entry_content := CStr "look here" |}.
Proof.
  destruct (proj2 (request_messages_normalised bedrock_client [hello; two_parts] ∅)
              1%nat two_parts eq_refl) as (e & He & Hrole & Hlist & _).
  rewrite He. f_equal. destruct e as [r c]. simpl in *.
  now rewrite (Hrole "user" eq_refl), (Hlist [PStr "look"; PStr "here"] eq_refl).
Defined.

Lemma response_parsing_witness :
  exists e, create_chat_completion bedrock_client empty_vendor [hello] false ∅ = Raise e.
Proof.
  apply (proj1 (response_parsing bedrock_client empty_vendor [hello] ∅ empty_body eq_refl)).
  reflexivity.
Defined.

(** C8 does not hold as the specification words it: a body without
    [stop_reason] does not make the call raise, the finish reason ["stop"]
    is filled in. *)
Lemma missing_stop_reason_defaulted :
  stop_reason_of terse_body = None /\
  create_chat_completion bedrock_client terse_vendor [hello] false ∅ =
  Ok {| choices :=
          [ {| choice_message :=
                 {| message_role := "assistant"; message_content := JStr "hi" |};
               choice_finish_reason := JStr "stop" |} ] |}.
Proof. split; reflexivity. Qed.

(** What a returning call of [create] leaves behind. *)
Lemma bedrock_create_returns self vendor messages json_output extra r self' :
  create self vendor messages json_output extra = Some (Ok r, self') ->
  self' = _update_usage self (usage r) /\
  count_tokens messages = Ok (prompt_tokens (usage r)) /\
  completion_tokens (usage r) = count_tokens_str (result_content r).
Proof.
  unfold create.
  destruct (call_with_extra _ _ _ _) as [response|e]; [|congruence].
  destruct (choices response) as [|c rest]; [congruence|].
  destruct (count_tokens messages) as [prompt|e]; [|congruence].
  destruct (message_content (choice_message c)); try congruence.
  intros H. injection H as <- <-. repeat split.
Qed.

Lemma bedrock_update_usage_bump self delta :
  _usage (_update_usage self delta) = bump (_usage self) delta.
Proof. unfold _update_usage, bump. now destruct (_usage self) as [[actual total]|]. Qed.

Lemma bedrock_create_all_usage vendor calls :
  forall self rs self',
    create_all self vendor calls = Some (rs, self') ->
    Forall2 bedrock_estimated calls rs /\
    _usage self' = fold_left bump (map usage rs) (_usage self).
Proof.
  induction calls as [|c rest IH]; intros self rs self'; simpl.
  - intros H. injection H as <- <-. split; [constructor | reflexivity].
  - destruct (create self vendor _ _ _) as [[[r|e] self1]|] eqn:Hcall; try congruence.
    destruct (create_all self1 vendor rest) as [[rs1 self2]|] eqn:Hrest; [|congruence].
    intros H. injection H as <- <-.
    destruct (bedrock_create_returns _ _ _ _ _ _ _ Hcall) as (-> & Hp & Hc).
    destruct (IH _ _ _ Hrest) as [Hall Husage].
    split; [constructor; [split|]; assumption|].
    simpl. rewrite Husage, bedrock_update_usage_bump. reflexivity.
Qed.

End BedrockSpec.

(** ** The generative-SDK adapter *)

Module GeminiSpec.

Import Gemini Examples.

Lemma stream_from chunks :
  forall yielded,
    fold_left stream_step chunks yielded = yielded ++ map chunk_fragment chunks.
Proof.
  induction chunks as [|c rest IH]; intros yielded; simpl.
  - now rewrite app_nil_r.
  - rewrite IH. unfold stream_step. now rewrite <- app_assoc.
Qed.

Lemma chunk_fragments_open chunks :
  Forall (fun f => fragment_finish f = None) (map chunk_fragment chunks).
Proof. induction chunks; simpl; constructor; auto. Qed.

Lemma chunk_fragments_content chunks :
  map fragment_content (map chunk_fragment chunks) =
  map (fun c => Some (chunk_text c)) chunks.
Proof. induction chunks as [|c rest IH]; simpl; [|rewrite IH]; reflexivity. Qed.

(** C4.  When the vendor's stream emits its chunks and ends, the generator
    yields one fragment per chunk, in the vendor's order, each with the
    chunk's text and a null finish reason, then one last fragment with
    the finish reason ["stop"], and ends. *)
Theorem streaming_fragments (self : GeminiChatCompletionClient) (sdk : generative_model)
    (messages : list message) (kwargs : gmap string kwval) :
  let vendor :=
    generate_content_stream sdk (_convert_messages_to_prompt messages)
      (generation_kwargs self kwargs) in
  let g := create_chat_completion self sdk messages true kwargs in
  failure vendor = None ->
  exists partial terminal,
    yields g = partial ++ [terminal] /\
    length partial = length (chunks vendor) /\
    map fragment_content partial = map (fun c => Some (chunk_text c)) (chunks vendor) /\
    Forall (fun f => fragment_finish f = None) partial /\
    fragment_finish terminal = Some "stop" /\
    finish g = Returned None.
Proof.
  intros vendor g Hend. subst g. unfold create_chat_completion. fold vendor.
  rewrite Hend, stream_from. simpl.
  exists (map chunk_fragment (chunks vendor)), end_of_stream.
  repeat split.
  - apply length_map.
  - apply chunk_fragments_content.
  - apply chunk_fragments_open.
Qed.

Lemma streaming_fragments_witness :
  exists partial terminal,
    yields (create_chat_completion gemini_client echo_sdk [hello] true ∅)
      = partial ++ [terminal] /\
    length partial = 2%nat /\
    map fragment_content partial = [Some "good"; Some " day"] /\
    Forall (fun f => fragment_finish f = None) partial /\
    fragment_finish terminal = Some "stop" /\
    finish (create_chat_completion gemini_client echo_sdk [hello] true ∅) = Returned None.
Proof.
  apply (streaming_fragments gemini_client echo_sdk [hello] ∅). reflexivity.
Defined.

(** A stream that breaks off ends the generator with the exception,
    after the fragments of the chunks it did emit. *)
Lemma streaming_failure self sdk messages kwargs e :
  let vendor :=
    generate_content_stream sdk (_convert_messages_to_prompt messages)
      (generation_kwargs self kwargs) in
  failure vendor = Some e ->
  create_chat_completion self sdk messages true kwargs =
  {| yields := map chunk_fragment (chunks vendor); finish := Raised e |}.
Proof.
  intros vendor He. unfold create_chat_completion. fold vendor.
  now rewrite He, stream_from.
Qed.

Lemma to_config_api_key self : api_key (_to_config self) = None.
Proof. reflexivity. Qed.

(** C10.  Two clients built from parameters that differ in the API key
    only serialise to the same configuration, whose key is [None]. *)
Theorem api_key_not_serialised (genai : bool) (name : string) (key1 key2 : option string)
    (temp : float) (limit : Z) (c1 c2 : GeminiChatCompletionClient)
    (configured1 configured2 : option string) :
  __init__ genai {| model := name; api_key := key1;
                    temperature := temp; max_output_tokens := limit |}
    = Ok (c1, configured1) ->
  __init__ genai {| model := name; api_key := key2;
                    temperature := temp; max_output_tokens := limit |}
    = Ok (c2, configured2) ->
  _to_config c1 = _to_config c2 /\
  api_key (_to_config c1) = None /\
  api_key (_to_config c2) = None.
Proof.
  unfold __init__. destruct genai; [|discriminate].
  intros H1 H2. injection H1 as <- _. injection H2 as <- _. repeat split.
Qed.

Lemma api_key_not_serialised_witness :
  _to_config keyed_client = _to_config keyed_client /\
  api_key (_to_config keyed_client) = None /\
  api_key (_to_config keyed_client) = None.
Proof.
  exact (api_key_not_serialised true "gemini-2.5-flash" (Some "key-one") (Some "key-two")
           float_zero 1024 keyed_client keyed_client (Some "key-one") (Some "key-two")
           eq_refl eq_refl).
Defined.

Lemma gemini_create_returns self sdk tiktoken messages extra r self' :
  create self sdk tiktoken messages extra = (Ok r, self') ->
  self' = _update_usage self (usage r) /\
  gemini_estimated tiktoken {| call_messages := messages; call_extra := extra |} r.
Proof.
  unfold create. destruct (generate_content sdk _ extra) as [resp|e]; [|congruence].
  intros H. injection H as <- <-. repeat split.
Qed.

Lemma gemini_update_usage_bump self delta :
  _usage (_update_usage self delta) = bump (_usage self) delta.
Proof. unfold _update_usage, bump. now destruct (_usage self) as [[actual total]|]. Qed.

Lemma gemini_create_all_usage sdk tiktoken calls :
  forall self rs self',
    create_all self sdk tiktoken calls = Some (rs, self') ->
    Forall2 (gemini_estimated tiktoken) calls rs /\
    _usage self' = fold_left bump (map usage rs) (_usage self).
Proof.
  induction calls as [|c rest IH]; intros self rs self'; simpl.
  - intros H. injection H as <- <-. split; [constructor | reflexivity].
  - destruct (create self sdk tiktoken _ _) as [[r|e] self1] eqn:Hcall; [|congruence].
    destruct (create_all self1 sdk tiktoken rest) as [[rs1 self2]|] eqn:Hrest; [|congruence].
    intros H. injection H as <- <-.
    destruct (gemini_create_returns _ _ _ _ _ _ _ Hcall) as (-> & Hest).
    destruct (IH _ _ _ Hrest) as [Hall Husage].
    split; [constructor; [destruct c|]; assumption|].
    simpl. rewrite Husage, gemini_update_usage_bump. reflexivity.
Qed.

End GeminiSpec.

(** ** Usage counters of both adapters *)

Module UsageSpec.

Import Examples UsageFacts.

Lemma fresh_counters (u : option (RequestUsage * RequestUsage)) (deltas : list RequestUsage) :
  deltas <> [] ->
  fold_left bump deltas None = Some (usage_sum deltas, usage_sum deltas).
Proof. destruct deltas as [|d rest]; [congruence | intros _; apply bump_all_fresh]. Qed.

Lemma results_nonempty {C : Type} (P : C -> CreateResult -> Prop) calls rs :
  Forall2 P calls rs -> calls <> [] -> map usage rs <> [].
Proof. destruct 1; simpl; congruence. Qed.

(** C1, as the code has it.  On an instance of either adapter that has
    served no call yet, after any run of one or more returning calls of
    [create] the usage of each result is the pair of estimates of its
    call, and the total counters as well as the actual counters hold the
    sum of these usages over the whole run. *)
Theorem usage_counters_accumulate :
  (forall (self self' : Bedrock.BedrockClaudeChatCompletionClient)
          (vendor : Bedrock.backend) (calls : list Bedrock.create_call)
          (rs : list CreateResult),
      Bedrock._usage self = None ->
      calls <> [] ->
      Bedrock.create_all self vendor calls = Some (rs, self') ->
      Forall2 bedrock_estimated calls rs /\
      Bedrock.total_usage self' = Some (usage_sum (map usage rs)) /\
      Bedrock.actual_usage self' = Some (usage_sum (map usage rs))) /\
  (forall (self self' : Gemini.GeminiChatCompletionClient)
          (sdk : Gemini.generative_model) (tiktoken : string -> option Z)
          (calls : list Gemini.create_call) (rs : list CreateResult),
      Gemini._usage self = None ->
      calls <> [] ->
      Gemini.create_all self sdk tiktoken calls = Some (rs, self') ->
      Forall2 (gemini_estimated tiktoken) calls rs /\
      Gemini.total_usage self' = Ok (usage_sum (map usage rs)) /\
      Gemini.actual_usage self' = Ok (usage_sum (map usage rs))).
Proof.
  split.
  - intros self self' vendor calls rs Hfresh Hcalls Hrun.
    destruct (BedrockSpec.bedrock_create_all_usage vendor calls self rs self' Hrun)
      as [Hest Husage].
    rewrite Hfresh, (fresh_counters None) in Husage
      by exact (results_nonempty _ _ _ Hest Hcalls).
    unfold Bedrock.total_usage, Bedrock.actual_usage. rewrite Husage.
    repeat split. exact Hest.
  - intros self self' sdk tiktoken calls rs Hfresh Hcalls Hrun.
    destruct (GeminiSpec.gemini_create_all_usage sdk tiktoken calls self rs self' Hrun)
      as [Hest Husage].
    rewrite Hfresh, (fresh_counters None) in Husage
      by exact (results_nonempty _ _ _ Hest Hcalls).
    unfold Gemini.total_usage, Gemini.actual_usage. rewrite Husage.
    repeat split. exact Hest.
Qed.

Lemma usage_counters_accumulate_witness :
  Bedrock.total_usage served_twice = Some {| prompt_tokens := 2; completion_tokens := 2 |} /\
  Bedrock.actual_usage served_twice = Some {| prompt_tokens := 2; completion_tokens := 2 |}.
Proof.
  refine (proj2 (proj1 usage_counters_accumulate bedrock_client served_twice terse_vendor
                   [bedrock_call; bedrock_call] [bedrock_result; bedrock_result]
                   eq_refl _ eq_refl)).
  discriminate.
Defined.

(** C1 does not hold as the specification words it: after two calls whose
    estimates are (1, 1) each, the actual counters hold (2, 2), not the
    estimates of the second call; and likewise for the other adapter,
    with (4, 2) per call and (8, 4) after two. *)
Lemma actual_usage_not_last_call :
  (Bedrock.create_all bedrock_client terse_vendor [bedrock_call; bedrock_call]
     = Some ([bedrock_result; bedrock_result], served_twice) /\
   usage bedrock_result = {| prompt_tokens := 1; completion_tokens := 1 |} /\
   Bedrock.actual_usage served_twice
     = Some {| prompt_tokens := 2; completion_tokens := 2 |} /\
   Bedrock.actual_usage served_twice <> Some (usage bedrock_result)) /\
  (exists r self',
     Gemini.create_all gemini_client echo_sdk no_tiktoken [gemini_call; gemini_call]
       = Some ([r; r], self') /\
     usage r = {| prompt_tokens := 4; completion_tokens := 2 |} /\
     Gemini.actual_usage self'
       = Ok {| prompt_tokens := 8; completion_tokens := 4 |}).
Proof.
  split.
  - repeat split. discriminate.
  - eexists. eexists. repeat split.
Qed.

End UsageSpec.

(** ** The non-blocking entry points *)

Module ExecutorSpec.

Import Executor.

(** A job at the end of the queue resolves its future with its own value,
    whatever ran before it. *)
Lemma work_last {A : Type} (jobs : list (nat * (unit -> A))) :
  forall (done : gmap nat A) (fut : nat) (f : unit -> A),
    work (jobs ++ [(fut, f)]) done !! fut = Some (f tt).
Proof.
  induction jobs as [|[n g] rest IH]; intros done fut f; simpl.
  - apply lookup_insert_eq.
  - apply IH.
Qed.

Lemma await_submitted {A : Type} (p : pool A) (f : unit -> A) :
  let '(fut, p') := run_in_executor p f in
  (await p' fut).1 = Some (f tt).
Proof. unfold run_in_executor, await. simpl. apply work_last. Qed.

(** C3.  Against a vendor that answers as a function of the request, the
    non-blocking entry point of either adapter hands back what the
    blocking entry point returns for the same arguments, whatever else
    the pool has queued. *)
Theorem blocking_and_non_blocking_agree :
  (forall (p : pool (result Bedrock.chat_completion))
          (self : Bedrock.BedrockClaudeChatCompletionClient) (vendor : Bedrock.backend)
          (messages : list message) (stream : bool) (kwargs : gmap string kwval),
      (bedrock_acreate_chat_completion p self vendor messages stream kwargs).1 =
      Some (Bedrock.create_chat_completion self vendor messages stream kwargs)) /\
  (forall (p : pool Gemini.generator)
          (self : Gemini.GeminiChatCompletionClient) (sdk : Gemini.generative_model)
          (messages : list message) (stream : bool) (kwargs : gmap string kwval),
      (gemini_acreate_chat_completion p self sdk messages stream kwargs).1 =
      Some (Gemini.create_chat_completion self sdk messages stream kwargs)).
Proof.
  split; intros p self vendor messages stream kwargs.
  - exact (await_submitted p
             (fun _ => Bedrock.create_chat_completion self vendor messages stream kwargs)).
  - exact (await_submitted p
             (fun _ => Gemini.create_chat_completion self vendor messages stream kwargs)).
Qed.

End ExecutorSpec.

(** ** More on the launcher *)

Module LauncherMore.

Import PyFacts Launcher Examples.

Lemma all_chars_append test s t :
  all_chars test (s +:+ t) = all_chars test s && all_chars test t.
Proof.
  induction s as [|c s IH]; simpl; [reflexivity|].
  now rewrite IH, andb_assoc.
Qed.

Lemma hex_digit_is_hex (d : N) : (d < 16)%N -> is_hex_digit (hex_digit d) = true.
Proof.
  intros Hd. unfold is_hex_digit, hex_digit.
  destruct (d <? 10)%N eqn:E.
  - apply N.ltb_lt in E. rewrite N_ascii_embedding by lia.
    apply orb_true_iff. left. apply andb_true_iff. split; apply N.leb_le; lia.
  - apply N.ltb_ge in E. rewrite N_ascii_embedding by lia.
    apply orb_true_iff. right. apply andb_true_iff. split; apply N.leb_le; lia.
Qed.

Lemma hex_digits_are_hex (n : nat) :
  forall v : N, all_chars is_hex_digit (hex_digits n v) = true.
Proof.
  induction n as [|n IH]; intros v; simpl; [reflexivity|].
  rewrite all_chars_append, IH. simpl.
  rewrite hex_digit_is_hex; [reflexivity|].
  apply N.mod_lt. discriminate.
Qed.

(** The websocket path of a new instance: a path that is given and not
    empty is kept as it is; without a path, or with the empty one, the
    instance gets the random token, 32 lower-case hexadecimal digits. *)
Theorem websocket_path_of_new (p : init_params) (env : gmap string string) (rnd : N) :
  let path := _playwright_websocket_path (__init__ p env rnd) in
  (forall s, p_playwright_websocket_path p = Some s -> str_truthy s = true -> path = s) /\
  (opt_truthy (p_playwright_websocket_path p) = false ->
   path = token_hex 16 rnd /\
   String.length path = 32%nat /\
   all_chars is_hex_digit path = true).
Proof.
  simpl. split.
  - intros s -> Hs. now rewrite Hs.
  - intros Hfalsy.
    assert (Hpath : match p_playwright_websocket_path p with
                    | Some s => if str_truthy s then s else token_hex 16 rnd
                    | None => token_hex 16 rnd
                    end = token_hex 16 rnd).
    { destruct (p_playwright_websocket_path p) as [s|]; [|reflexivity].
      simpl in Hfalsy. now rewrite Hfalsy. }
    rewrite Hpath. split; [reflexivity|]. split.
    + unfold token_hex. apply LauncherSpec.hex_digits_length.
    + apply hex_digits_are_hex.
Qed.

Lemma websocket_path_of_new_witness :
  _playwright_websocket_path
    (__init__ {| p_bind_dir := "/workspace";
                 p_image := "magentic-ui-vnc-browser";
                 p_playwright_port := 37367;
                 p_playwright_websocket_path := Some "";
                 p_novnc_port := 6080;
                 p_inside_docker := true;
                 p_network_name := "my-network" |} ∅ 48879)
  = "0000000000000000000000000000beef".
Proof.
  refine (proj1 (proj2 (websocket_path_of_new _ ∅ 48879%N) _)). reflexivity.
Defined.

Lemma instance_last_env b : instance b -> exists env, last_env env b.
Proof.
  destruct 1 as [kw env rnd b Hnew | b env pw novnc Hb].
  - exists env. exact (last_env_new env kw rnd b Hnew).
  - exists env. exact (last_env_regenerated env b pw novnc Hb).
Qed.

Lemma instance_docker_name b :
  instance b ->
  _docker_name b = container_name (_playwright_websocket_path b) (_novnc_port b).
Proof.
  destruct 1 as [kw env rnd b Hnew | b env pw novnc Hb].
  - destruct (LauncherSpec.new_inv _ _ _ _ Hnew) as (p & _ & ->). reflexivity.
  - reflexivity.
Qed.

(** The container is created under the name the addresses point to: on
    every instance the name of the creation request is
    [magentic-ui-vnc-browser_<token>_<viewer port>] with the current
    token and viewer port; inside docker this is the host name of both
    addresses and the request joins the instance's network; outside
    docker the request names no network. *)
Theorem container_name_matches_hostname (b : VncDockerPlaywrightBrowser)
    (resolve : string -> string) :
  instance b ->
  let request := create_container b resolve in
  request_name request =
    "magentic-ui-vnc-browser_" +:+ _playwright_websocket_path b +:+ "_"
      +:+ str_int (_novnc_port b) /\
  (_inside_docker b = true ->
   _hostname b = request_name request /\
   request_network request = Some (_network_name b)) /\
  (_inside_docker b = false -> request_network request = None).
Proof.
  intros Hb request. subst request. simpl.
  rewrite (instance_docker_name b Hb). split; [reflexivity|]. split.
  - intros Hin. rewrite Hin. split; [|reflexivity].
    destruct (instance_last_env b Hb) as [env Henv].
    rewrite (LauncherSpec.last_env_hostname env b Henv), Hin. reflexivity.
  - intros ->. reflexivity.
Qed.

Lemma container_name_matches_hostname_witness :
  request_name (create_container outside_browser (fun d => d))
    = "magentic-ui-vnc-browser_tok_6080" /\
  request_network (create_container outside_browser (fun d => d)) = None.
Proof.
  destruct (container_name_matches_hostname outside_browser (fun d => d)
              (instance_new outside_kwargs example_env 0%N outside_browser
                 LauncherSpec.outside_browser_new)) as (Hname & _ & Hout).
  split; [exact Hname | exact (Hout eq_refl)].
Defined.

Lemma to_int_not_nil (z : Z) :
  Z.to_int z <> Decimal.Pos Decimal.Nil /\ Z.to_int z <> Decimal.Neg Decimal.Nil.
Proof.
  pose proof (DecimalZ.to_of (Z.to_int z)) as H. rewrite DecimalZ.of_to in H.
  split; intros E; rewrite E in H; discriminate.
Qed.

(** [str] of an [int] is a numeral that denotes it. *)
Lemma parse_int_str_int (z : Z) : parse_int (str_int z) = Some z.
Proof.
  unfold parse_int, str_int. destruct (to_int_not_nil z) as [Hp Hn].
  rewrite NilZero.isi by assumption. simpl. f_equal. apply DecimalZ.of_to.
Qed.

Lemma str_int_inj (a b : Z) : str_int a = str_int b -> a = b.
Proof.
  intros H. pose proof (parse_int_str_int a) as Ha. rewrite H, parse_int_str_int in Ha.
  congruence.
Qed.

Lemma append_cancel_r (t : string) :
  forall s s' : string, s +:+ t = s' +:+ t -> s = s'.
Proof.
  induction s as [|c s IH]; intros [|c' s'] H; simpl in H.
  - reflexivity.
  - apply (f_equal String.length) in H. simpl in H. rewrite length_append in H. lia.
  - apply (f_equal String.length) in H. simpl in H. rewrite length_append in H. lia.
  - injection H as -> H. f_equal. now apply IH.
Qed.

Lemma port_key_inj (a b : Z) : str_int a +:+ "/tcp" = str_int b +:+ "/tcp" -> a = b.
Proof. intros H. apply str_int_inj. exact (append_cancel_r _ _ _ H). Qed.

(** What the creation request tells the runtime and the container about
    the ports: each of the two ports is bound to itself under the key
    [<port>/tcp]; the mapping has two bindings, and a single one when the
    two ports are the same number; the environment carries the token and
    the two ports as numerals that denote them. *)
Theorem container_ports_and_environment (b : VncDockerPlaywrightBrowser)
    (resolve : string -> string) :
  let request := create_container b resolve in
  request_ports request !! (str_int (_playwright_port b) +:+ "/tcp")
    = Some (_playwright_port b) /\
  request_ports request !! (str_int (_novnc_port b) +:+ "/tcp")
    = Some (_novnc_port b) /\
  size (request_ports request)
    = (if decide (_playwright_port b = _novnc_port b) then 1 else 2)%nat /\
  request_environment request !! "PLAYWRIGHT_WS_PATH"
    = Some (_playwright_websocket_path b) /\
  request_environment request !! "PLAYWRIGHT_PORT" ≫= parse_int
    = Some (_playwright_port b) /\
  request_environment request !! "NO_VNC_PORT" ≫= parse_int
    = Some (_novnc_port b).
Proof.
  intros request. subst request. simpl.
  set (kp := str_int (_playwright_port b) +:+ "/tcp").
  set (kn := str_int (_novnc_port b) +:+ "/tcp").
  split; [|split; [|split; [|split; [|split]]]].
  - destruct (decide (kn = kp)) as [E|E].
    + rewrite E, lookup_insert_eq. f_equal. exact (port_key_inj _ _ E).
    + rewrite lookup_insert_ne by exact E. apply lookup_singleton_eq.
  - apply lookup_insert_eq.
  - destruct (decide (_playwright_port b = _novnc_port b)) as [E|E].
    + subst kp kn. rewrite E, insert_singleton_eq. apply map_size_singleton.
    + rewrite map_size_insert_None.
      * now rewrite map_size_singleton.
      * apply lookup_singleton_ne. intros H. apply E. exact (port_key_inj _ _ H).
  - reflexivity.
  - rewrite lookup_insert_ne by discriminate. rewrite lookup_insert_eq. simpl.
    apply parse_int_str_int.
  - rewrite lookup_insert_eq. simpl. apply parse_int_str_int.
Qed.

Lemma first_nonempty_chain env :
  or_str (external_host_env env) "127.0.0.1" =
  default "127.0.0.1" (first_nonempty (map (getenv env) host_variables)).
Proof.
  unfold external_host_env, or_opt, or_str, host_variables. simpl.
  repeat match goal with
  | |- context [getenv env ?k] => destruct (getenv env k) as [[|? ?]|]; simpl
  end; reflexivity.
Qed.

(** Outside docker the host name of both addresses is the value of the
    first of [MUI_EXTERNAL_HOST], [PUBLIC_HOST], [PUBLIC_IP], [HOST_IP]
    that is set and not empty, in the environment of the moment the
    instance was built or last regenerated, and [127.0.0.1] when none
    is. *)
Theorem external_host_resolution (env : gmap string string)
    (b : VncDockerPlaywrightBrowser) :
  last_env env b ->
  _inside_docker b = false ->
  let host := default "127.0.0.1" (first_nonempty (map (getenv env) host_variables)) in
  _hostname b = host /\
  browser_address b =
    "ws://" +:+ host +:+ ":" +:+ str_int (_playwright_port b) +:+ "/"
      +:+ _playwright_websocket_path b /\
  vnc_address b = "http://" +:+ host +:+ ":" +:+ str_int (_novnc_port b) +:+ "/vnc.html".
Proof.
  intros Hb Hout host.
  assert (Hhost : _hostname b = host).
  { rewrite (LauncherSpec.last_env_hostname env b Hb), Hout.
    unfold resolve_hostname. apply first_nonempty_chain. }
  unfold browser_address, vnc_address. rewrite Hhost. repeat split.
Qed.

Lemma external_host_resolution_witness :
  _hostname (__init__ {| p_bind_dir := "/workspace";
                         p_image := "magentic-ui-vnc-browser";
                         p_playwright_port := 37367;
                         p_playwright_websocket_path := Some "tok";
                         p_novnc_port := 6080;
                         p_inside_docker := false;
                         p_network_name := "lab-net" |}
                      {[ "MUI_EXTERNAL_HOST" := ""; "PUBLIC_IP" := "203.0.113.7" ]} 0)
  = "203.0.113.7".
Proof.
  refine (proj1 (external_host_resolution
                   {[ "MUI_EXTERNAL_HOST" := ""; "PUBLIC_IP" := "203.0.113.7" ]} _
                   (last_env_new _ outside_kwargs 0%N _ eq_refl) eq_refl)).
Defined.

Lemma last_env_instance env b : last_env env b -> instance b.
Proof.
  destruct 1 as [kw rnd b Hnew | b pw novnc Hb].
  - exact (instance_new kw env rnd b Hnew).
  - exact (instance_regenerated b env pw novnc Hb).
Qed.

(** Rebuilding an instance from its own configuration, in the
    environment its host name was computed in, gives the same instance
    but for the network name, which is [my-network]; both addresses are
    those of the original. *)
Theorem rebuilt_from_own_config (env : gmap string string)
    (b : VncDockerPlaywrightBrowser) (rnd : N) :
  last_env env b ->
  _from_config (_to_config b) env rnd = Ok (with_network b "my-network") /\
  browser_address (with_network b "my-network") = browser_address b /\
  vnc_address (with_network b "my-network") = vnc_address b.
Proof.
  intros Hb. split; [|split; reflexivity].
  pose proof (last_env_instance env b Hb) as Hinst.
  unfold _from_config, new. simpl. unfold __init__, with_network. simpl.
  rewrite (LauncherSpec.instance_path_truthy b Hinst).
  rewrite <- (LauncherSpec.last_env_hostname env b Hb).
  rewrite <- (instance_docker_name b Hinst). reflexivity.
Qed.

Lemma rebuilt_from_own_config_witness :
  _from_config (_to_config outside_browser) example_env 7
    = Ok (with_network outside_browser "my-network") /\
  browser_address (with_network outside_browser "my-network")
    = browser_address outside_browser /\
  vnc_address (with_network outside_browser "my-network") = vnc_address outside_browser.
Proof.
  exact (rebuilt_from_own_config example_env outside_browser 7%N
           (last_env_new example_env outside_kwargs 0%N outside_browser
              LauncherSpec.outside_browser_new)).
Defined.

(** Building an instance from a configuration never raises, and the
    instance serialises back to that configuration when the
    configuration has a websocket path that is not empty; when it has
    none, only the path differs: it is the random token. *)
Theorem config_of_rebuilt (cfg : VncDockerPlaywrightBrowserConfig)
    (env : gmap string string) (rnd : N) :
  exists b,
    _from_config cfg env rnd = Ok b /\
    (forall s, playwright_websocket_path cfg = Some s -> str_truthy s = true ->
       _to_config b = cfg) /\
    (opt_truthy (playwright_websocket_path cfg) = false ->
       _to_config b = with_path cfg (token_hex 16 rnd)).
Proof.
  eexists. split; [reflexivity|]. destruct cfg as [dir img pw novnc path inside].
  unfold _to_config, with_path. simpl. split.
  - intros s -> Hs. now rewrite Hs.
  - intros Hfalsy. destruct path as [s|]; [|reflexivity].
    simpl in Hfalsy. now rewrite Hfalsy.
Qed.

Lemma config_of_rebuilt_witness :
  exists b,
    _from_config (_to_config outside_browser) ∅ 0 = Ok b /\
    _to_config b = _to_config outside_browser.
Proof.
  destruct (config_of_rebuilt (_to_config outside_browser) ∅ 0%N) as (b & Hb & Hkeep & _).
  exists b. split; [exact Hb|]. exact (Hkeep "tok" eq_refl eq_refl).
Defined.

Lemma append_cancel_l (s : string) : forall t t' : string, s +:+ t = s +:+ t' -> t = t'.
Proof.
  induction s as [|c s IH]; intros t t' H; simpl in H; [exact H|].
  injection H as H. now apply IH.
Qed.

Lemma container_name_port_inj path (p q : Z) :
  container_name path p = container_name path q -> p = q.
Proof.
  unfold container_name. intros H.
  apply append_cancel_l, append_cancel_l, append_cancel_l in H.
  now apply str_int_inj.
Qed.

(** Regenerating the ports renames the container exactly when the viewer
    port changes: the name after the regeneration is the old name if and
    only if the probed viewer port is the old one; the playwright port
    plays no part in the name. *)
Theorem regeneration_renames_container (b : VncDockerPlaywrightBrowser)
    (env : gmap string string) (pw novnc : Z) :
  instance b ->
  _docker_name (_generate_new_browser_address b env pw novnc) = _docker_name b
  <-> novnc = _novnc_port b.
Proof.
  intros Hb. rewrite (instance_docker_name b Hb). simpl. split.
  - apply container_name_port_inj.
  - intros ->. reflexivity.
Qed.

Lemma regeneration_renames_container_witness :
  _docker_name (_generate_new_browser_address outside_browser ∅ 40001 6080)
    = _docker_name outside_browser.
Proof.
  refine (proj2 (regeneration_renames_container outside_browser ∅ 40001 6080
                   (instance_new outside_kwargs example_env 0%N outside_browser
                      LauncherSpec.outside_browser_new)) _).
  reflexivity.
Defined.

End LauncherMore.

(** ** More on the managed-endpoint adapter *)

Module BedrockMore.

Import Bedrock Examples.

(** Streaming is refused before anything is sent: the blocking entry
    point raises [NotImplementedError] for [stream=True] whatever the
    vendor would answer, and so does [create] when its extra arguments
    carry a true [stream], leaving the instance as it was. *)
Theorem streaming_not_implemented (self : BedrockClaudeChatCompletionClient)
    (vendor : backend) (messages : list message) (json_output : bool)
    (extra : gmap string kwval) (flag : kwval) :
  extra !! "stream" = Some flag -> kw_truthy flag = true ->
  extra !! "self" = None -> extra !! "messages" = None ->
  create_chat_completion self vendor messages true (delete "stream" extra)
    = Raise NotImplementedError /\
  create self vendor messages json_output extra = Some (Raise NotImplementedError, self).
Proof.
  intros Hflag Htrue Hself Hmsgs. split; [reflexivity|].
  unfold create, call_with_extra. rewrite Hself, Hmsgs, Hflag. simpl.
  rewrite Htrue. reflexivity.
Qed.

Lemma streaming_not_implemented_witness :
  create bedrock_client terse_vendor [hello] false {[ "stream" := KBool true ]}
    = Some (Raise NotImplementedError, bedrock_client).
Proof.
  refine (proj2 (streaming_not_implemented bedrock_client terse_vendor [hello] false
                   {[ "stream" := KBool true ]} (KBool true) _ _ _ _)); reflexivity.
Defined.

Lemma assistant_text_inv body t :
  assistant_text body = Ok t -> first_block_text body = Some t.
Proof.
  intros H. destruct (first_block_text body) as [t'|] eqn:E.
  - rewrite (BedrockSpec.assistant_text_present body t' E) in H. congruence.
  - destruct (BedrockSpec.assistant_text_missing body E) as [e He]. congruence.
Qed.

Lemma create_chat_completion_inv self vendor messages stream kwargs response :
  create_chat_completion self vendor messages stream kwargs = Ok response ->
  stream = false /\
  exists body t,
    vendor (_model_id self) (build_payload self messages kwargs) = Ok body /\
    first_block_text body = Some t /\
    response =
      {| choices :=
           [ {| choice_message := {| message_role := "assistant"; message_content := t |};
                choice_finish_reason := default (JStr "stop") (stop_reason_of body) |} ] |}.
Proof.
  unfold create_chat_completion. destruct stream; [discriminate|].
  destruct (vendor _ _) as [body|e] eqn:Hvendor; [|discriminate]. simpl.
  destruct (assistant_text body) as [t|e] eqn:Htext; [|discriminate]. simpl.
  pose proof (assistant_text_inv body t Htext) as Hfirst.
  rewrite (BedrockSpec.get_stop_reason body t Hfirst). simpl.
  intros H. injection H as <-. split; [reflexivity|]. now exists body, t.
Qed.

(** What a returning call of [create] means.  The vendor was sent the
    converted messages, behind the JSON-only system message when
    [json_output] is set, and answered a body whose first content block
    has the text returned; the result says ["stop"] whatever the body's
    [stop_reason], and is not cached; the prompt estimate is that of the
    messages given, the system message not counted. *)
Theorem create_returned (self self' : BedrockClaudeChatCompletionClient)
    (vendor : backend) (messages : list message) (json_output : bool)
    (extra : gmap string kwval) (r : CreateResult) :
  create self vendor messages json_output extra = Some (Ok r, self') ->
  exists body,
    vendor (_model_id self)
      (build_payload self (sent_messages json_output messages) (delete "stream" extra))
      = Ok body /\
    payload_messages
      (build_payload self (sent_messages json_output messages) (delete "stream" extra))
      = map entry_of (sent_messages json_output messages) /\
    first_block_text body = Some (JStr (result_content r)) /\
    finish_reason r = "stop" /\
    cached r = false /\
    count_tokens messages = Ok (prompt_tokens (usage r)) /\
    completion_tokens (usage r) = count_tokens_str (result_content r).
Proof.
  intros Hcreate.
  destruct (BedrockSpec.bedrock_create_returns _ _ _ _ _ _ _ Hcreate) as (_ & Hp & Hc).
  revert Hcreate. unfold create, call_with_extra.
  destruct (extra !! "self"); [discriminate|].
  destruct (extra !! "messages"); [discriminate|].
  fold (sent_messages json_output messages).
  destruct (create_chat_completion _ _ _ _ _) as [response|e] eqn:Hcall; [|discriminate].
  destruct (create_chat_completion_inv _ _ _ _ _ _ Hcall) as (_ & body & t & Hv & Ht & ->).
  simpl. destruct (count_tokens messages) as [n|e]; [|discriminate].
  destruct t; try discriminate. intros H. injection H as <- _.
  exists body. simpl. rewrite BedrockSpec.convert_messages_map. repeat split; assumption.
Qed.

Lemma create_returned_witness :
  exists body,
    terse_vendor (_model_id bedrock_client)
      (build_payload bedrock_client (sent_messages true [hello]) (delete "stream" ∅))
      = Ok body /\
    payload_messages
      (build_payload bedrock_client (sent_messages true [hello]) (delete "stream" ∅))
      = map entry_of (sent_messages true [hello]) /\
    first_block_text body = Some (JStr "hi") /\
    finish_reason bedrock_result = "stop" /\
    cached bedrock_result = false /\
    count_tokens [hello] = Ok 1 /\
    completion_tokens (usage bedrock_result) = count_tokens_str "hi".
Proof.
  exact (create_returned bedrock_client
           (_update_usage bedrock_client (usage bedrock_result))
           terse_vendor [hello] true ∅ bedrock_result eq_refl).
Defined.

Lemma flat_item_cases m :
  (content_not_str m /\ flat_item m = Raise TypeError) \/
  (~ content_not_str m /\ exists s, flat_item m = Ok s).
Proof.
  destruct m as [role [[s|parts|shown]|] | role body cl shown]; simpl;
    try (left; split; [exact I | reflexivity]);
    right; (split; [tauto | eauto]).
Qed.

Lemma flat_items_cases messages :
  (Exists content_not_str messages /\ flat_items messages = Raise TypeError) \/
  (~ Exists content_not_str messages /\ exists items, flat_items messages = Ok items).
Proof.
  induction messages as [|m rest IH]; simpl.
  - right. split; [intros H; inversion H | eauto].
  - destruct (flat_item_cases m) as [[Hbad ->] | [Hgood [s ->]]]; simpl.
    + left. split; [now constructor | reflexivity].
    + destruct IH as [[Hbad ->] | [Hrest [items ->]]]; simpl.
      * left. split; [now apply Exists_cons_tl | reflexivity].
      * right. split; [|eauto]. intros H. inversion H; subst; tauto.
Qed.

(** The estimate of a list of messages is at least 1 and leaves at most
    199999 of the 200000 tokens, unless some [dict] message has a content
    that is there and is not a [str]: then the estimate, the remaining
    budget and with them every call of [create] on these messages raise,
    although the request conversion accepts such a content. *)
Theorem count_tokens_cases (messages : list message) :
  (Exists content_not_str messages ->
   count_tokens messages = Raise TypeError /\
   remaining_tokens messages = Raise TypeError /\
   forall self vendor json_output extra r self',
     create self vendor messages json_output extra <> Some (Ok r, self')) /\
  (~ Exists content_not_str messages ->
   exists n,
     count_tokens messages = Ok n /\ 1 <= n /\
     remaining_tokens messages = Ok (200000 - n) /\ 200000 - n <= 199999).
Proof.
  unfold remaining_tokens, count_tokens.
  destruct (flat_items_cases messages) as [[Hbad Hitems] | [Hgood [items Hitems]]].
  - split; [|tauto]. intros _.
    assert (Hcount : count_tokens messages = Raise TypeError)
      by (unfold count_tokens; now rewrite Hitems).
    rewrite Hitems. repeat split.
    intros self vendor json_output extra r self' Hcreate.
    destruct (BedrockSpec.bedrock_create_returns _ _ _ _ _ _ _ Hcreate) as (_ & Hp & _).
    congruence.
  - split; [tauto|]. intros _. rewrite Hitems. simpl.
    eexists. repeat split; lia.
Qed.

Lemma count_tokens_cases_witness :
  count_tokens [hello; two_parts] = Raise TypeError /\
  remaining_tokens [hello; two_parts] = Raise TypeError /\
  forall self vendor json_output extra r self',
    create self vendor [hello; two_parts] json_output extra <> Some (Ok r, self').
Proof.
  apply (proj1 (count_tokens_cases [hello; two_parts])).
  apply Exists_cons_tl, Exists_cons_hd. exact I.
Defined.

Lemma usage_sum_at_least (deltas : list RequestUsage) :
  Forall (fun d => 1 <= prompt_tokens d /\ 1 <= completion_tokens d) deltas ->
  Z.of_nat (length deltas) <= prompt_tokens (usage_sum deltas) /\
  Z.of_nat (length deltas) <= completion_tokens (usage_sum deltas).
Proof.
  induction 1 as [|d rest [Hp Hc] _ [IHp IHc]].
  - simpl. lia.
  - change (usage_sum (d :: rest)) with (usage_add d (usage_sum rest)).
    change (length (d :: rest)) with (S (length rest)).
    unfold usage_add. simpl. lia.
Qed.

Lemma estimates_positive calls rs :
  Forall2 bedrock_estimated calls rs ->
  Forall (fun d => 1 <= prompt_tokens d /\ 1 <= completion_tokens d) (map usage rs).
Proof.
  induction 1 as [|c r calls rs [Hp Hc] _ IH]; simpl; constructor; [|exact IH].
  split.
  - unfold count_tokens in Hp. destruct (flat_items _); simpl in Hp; [|discriminate].
    injection Hp as <-. lia.
  - rewrite Hc. unfold count_tokens_str. lia.
Qed.

(** The counters never decrease and count the calls: over a run of [N]
    returning calls of [create], each of the four counters grows by at
    least [N], every estimate being at least 1. *)
Theorem counters_grow_with_calls (self self' : BedrockClaudeChatCompletionClient)
    (vendor : backend) (calls : list create_call) (rs : list CreateResult) :
  create_all self vendor calls = Some (rs, self') ->
  let before := counters (_usage self) in
  let after := counters (_usage self') in
  let N := Z.of_nat (length calls) in
  prompt_tokens before.1 + N <= prompt_tokens after.1 /\
  completion_tokens before.1 + N <= completion_tokens after.1 /\
  prompt_tokens before.2 + N <= prompt_tokens after.2 /\
  completion_tokens before.2 + N <= completion_tokens after.2.
Proof.
  intros Hrun before after N.
  destruct (BedrockSpec.bedrock_create_all_usage vendor calls self rs self' Hrun)
    as [Hest Husage].
  pose proof (usage_sum_at_least _ (estimates_positive _ _ Hest)) as [Hp Hc].
  rewrite length_map, <- (Forall2_length _ _ _ Hest) in Hp, Hc. fold N in Hp, Hc.
  assert (Hafter : after =
            (usage_add before.1 (usage_sum (map usage rs)),
             usage_add before.2 (usage_sum (map usage rs)))).
  { subst after before. rewrite Husage. unfold counters.
    destruct (_usage self) as [[actual total]|]; simpl.
    - now rewrite UsageFacts.bump_all.
    - destruct (map usage rs) as [|d ds] eqn:E.
      + simpl. now rewrite !UsageFacts.usage_add_zero_l.
      + rewrite UsageFacts.bump_all_fresh. simpl.
        now rewrite !UsageFacts.usage_add_zero_l. }
  rewrite Hafter. simpl. lia.
Qed.

Lemma counters_grow_with_calls_witness :
  let after := counters (_usage served_twice) in
  prompt_tokens (counters (_usage bedrock_client)).1 + 2 <= prompt_tokens after.1 /\
  completion_tokens (counters (_usage bedrock_client)).1 + 2 <= completion_tokens after.1 /\
  prompt_tokens (counters (_usage bedrock_client)).2 + 2 <= prompt_tokens after.2 /\
  completion_tokens (counters (_usage bedrock_client)).2 + 2 <= completion_tokens after.2.
Proof.
  exact (counters_grow_with_calls bedrock_client served_twice terse_vendor
           [bedrock_call; bedrock_call] [bedrock_result; bedrock_result] eq_refl).
Defined.

(** The configuration round trip of the client.  [_to_config] succeeds
    exactly on an instance whose temperature lies in [0.0, 1.0] and whose
    token limit is at least 1, which the constructor does not check; the
    configuration then builds a client with the same four parameters and
    no counters.  On any other instance [_to_config] raises. *)
Theorem bedrock_config_round_trip (self : BedrockClaudeChatCompletionClient) :
  (in_unit_interval (_temperature self) = true -> 1 <= _max_tokens self ->
   exists cfg,
     _to_config self = Ok cfg /\
     _from_config true (FromModel cfg) = Ok (bedrock_fresh self)) /\
  (in_unit_interval (_temperature self) = false \/ _max_tokens self < 1 ->
   _to_config self = Raise ValueError) /\
  __init__ true {| model_id := _model_id self;
                   aws_region := _aws_region self;
                   temperature := _temperature self;
                   max_tokens := _max_tokens self |} = Ok (bedrock_fresh self).
Proof.
  unfold _to_config, _from_config, parse_config, validate. simpl. repeat split.
  - intros Ht Hn. apply Z.leb_le in Hn. rewrite Ht, Hn. simpl.
    eexists. split; [reflexivity|]. simpl. rewrite Ht, Hn. reflexivity.
  - intros [Ht | Hn].
    + now rewrite Ht.
    + apply Z.leb_gt in Hn. rewrite Hn. now rewrite andb_false_r.
Qed.

Lemma bedrock_config_round_trip_witness :
  _to_config {| _model_id := "m"; _aws_region := "us-west-2";
                _temperature := float_zero; _max_tokens := 0; _usage := None |}
  = Raise ValueError.
Proof.
  refine (proj1 (proj2 (bedrock_config_round_trip _)) _). right. reflexivity.
Defined.

End BedrockMore.

(** ** More on the generative-SDK adapter *)

Module GeminiMore.

Import PyFacts Gemini Examples.

Lemma prompt_step_line lines m : prompt_step lines m = lines ++ [line_of m].
Proof. destruct m as [role body | role body cl shown]; reflexivity. Qed.

Lemma prompt_lines_from messages :
  forall lines,
    fold_left prompt_step messages lines = lines ++ map line_of messages.
Proof.
  induction messages as [|m rest IH]; intros lines; simpl.
  - now rewrite app_nil_r.
  - rewrite IH, prompt_step_line, <- app_assoc. reflexivity.
Qed.

Lemma join_snoc sep (x : string) :
  forall (first : string) (others : list string),
    join sep ((first :: others) ++ [x]) = join sep (first :: others) +:+ sep +:+ x.
Proof.
  intros first others. revert first.
  induction others as [|second others IH]; intros first.
  - reflexivity.
  - change (join sep ((first :: second :: others) ++ [x]))
      with (first +:+ sep +:+ join sep ((second :: others) ++ [x])).
    rewrite IH.
    change (join sep (first :: second :: others))
      with (first +:+ sep +:+ join sep (second :: others)).
    now rewrite !append_assoc.
Qed.

(** The shape of the prompt: for no message it is the guidance line
    alone; each further message adds a line break and its own line
    [role: content] at the end, a list-valued content being joined with
    single spaces. *)
Theorem prompt_line_by_line :
  _convert_messages_to_prompt [] = system_line /\
  (forall (messages : list message) (m : message),
     _convert_messages_to_prompt (messages ++ [m]) =
     _convert_messages_to_prompt messages +:+ newline +:+ line_of m) /\
  (forall (role : string) (parts : list part),
     line_of (MDict (Some role) (Some (CList parts))) =
     role +:+ ": " +:+ join " " (map str_part parts)).
Proof.
  split; [reflexivity|]. split; [|reflexivity].
  intros messages m. unfold _convert_messages_to_prompt.
  rewrite !prompt_lines_from, map_app. simpl map.
  change ([system_line] ++ map line_of messages ++ [line_of m])
    with ((system_line :: map line_of messages) ++ [line_of m]).
  apply join_snoc.
Qed.

Lemma chunk_fragments_finish chunks :
  Forall (fun f => fragment_finish f = None) (map chunk_fragment chunks).
Proof. induction chunks; simpl; constructor; auto. Qed.

(** A stream that breaks off: the generator yields the fragments of the
    chunks the vendor did emit, none of which carries a finish reason,
    and then ends with the vendor's exception; the fragment that says
    ["stop"] is never yielded. *)
Theorem broken_stream (self : GeminiChatCompletionClient) (sdk : generative_model)
    (messages : list message) (kwargs : gmap string kwval) (e : exn) :
  let vendor :=
    generate_content_stream sdk (_convert_messages_to_prompt messages)
      (generation_kwargs self kwargs) in
  let g := create_chat_completion self sdk messages true kwargs in
  failure vendor = Some e ->
  map fragment_content (yields g) = map (fun c => Some (chunk_text c)) (chunks vendor) /\
  Forall (fun f => fragment_finish f = None) (yields g) /\
  ~ In end_of_stream (yields g) /\
  finish g = Raised e.
Proof.
  intros vendor g He. subst g.
  rewrite (GeminiSpec.streaming_failure self sdk messages kwargs e He). simpl.
  fold vendor. split; [apply GeminiSpec.chunk_fragments_content|].
  split; [apply chunk_fragments_finish|]. split; [|reflexivity].
  intros Hin. apply in_map_iff in Hin. destruct Hin as (c & Hc & _). discriminate.
Qed.

Lemma broken_stream_witness :
  let sdk := {| generate_content := fun _ _ => Raise (VendorError "down");
                generate_content_stream := fun _ _ =>
                  {| chunks := [ {| chunk_text := "good" |} ];
                     failure := Some (VendorError "down") |} |} in
  let g := create_chat_completion gemini_client sdk [hello] true ∅ in
  map fragment_content (yields g) = [Some "good"] /\
  Forall (fun f => fragment_finish f = None) (yields g) /\
  ~ In end_of_stream (yields g) /\
  finish g = Raised (VendorError "down").
Proof.
  intros sdk g.
  exact (broken_stream gemini_client sdk [hello] ∅ (VendorError "down") eq_refl).
Defined.

(** The configuration round trip of the client.  A client built from a
    configuration serialises to that configuration without its key, the
    key having gone to the SDK only.  A client rebuilt from its own
    configuration has the same three parameters and no counters, and
    rebuilding it configures the SDK with no key. *)
Theorem gemini_config_round_trip :
  (forall (genai : bool) (cfg : _GeminiClientConfig) (c : GeminiChatCompletionClient)
          (configured : option string),
     _from_config genai cfg = Ok (c, configured) ->
     configured = api_key cfg /\ _to_config c = without_key cfg) /\
  (forall c : GeminiChatCompletionClient,
     _from_config true (_to_config c) = Ok (gemini_fresh c, None)) /\
  (forall cfg : _GeminiClientConfig, _from_config false cfg = Raise RuntimeError).
Proof.
  split; [|split].
  - intros genai cfg c configured. unfold _from_config, __init__.
    destruct genai; [|discriminate]. simpl. intros H. injection H as <- <-.
    split; reflexivity.
  - reflexivity.
  - reflexivity.
Qed.

Lemma gemini_config_round_trip_witness :
  Some "key-one" = api_key keyed_config /\
  _to_config keyed_client = without_key keyed_config.
Proof.
  exact (proj1 gemini_config_round_trip true keyed_config keyed_client (Some "key-one")
           eq_refl).
Defined.

Lemma count_words_nonneg s : forall skip in_word, 0 <= count_words skip in_word s.
Proof.
  induction s as [|c rest IH]; intros skip in_word; simpl; [lia|].
  destruct skip as [|k]; [|apply IH].
  destruct (strip_space (String c rest)).
  - apply IH.
  - specialize (IH 0%nat true). destruct in_word; lia.
Qed.

Lemma estimate_nonneg tiktoken text :
  (forall s n, tiktoken s = Some n -> 0 <= n) -> 0 <= count_tokens_str tiktoken text.
Proof.
  intros Htik. unfold count_tokens_str, estimate.
  destruct (str_truthy text); [|lia].
  destruct (tiktoken text) as [n|] eqn:E; [exact (Htik _ _ E)|].
  apply count_words_nonneg.
Qed.

(** With a tokenizer that, when it works, returns a length, no call of
    [create] makes a counter decrease: a call that raises leaves the
    instance as it is, a call that returns adds its two estimates, which
    are not negative, to the actual and to the total counters. *)
Theorem gemini_counters_monotone (self self' : GeminiChatCompletionClient)
    (sdk : generative_model) (tiktoken : string -> option Z)
    (messages : list message) (extra : gmap string kwval)
    (outcome : result CreateResult) :
  (forall s n, tiktoken s = Some n -> 0 <= n) ->
  create self sdk tiktoken messages extra = (outcome, self') ->
  usage_le (counters (_usage self)).1 (counters (_usage self')).1 /\
  usage_le (counters (_usage self)).2 (counters (_usage self')).2 /\
  (forall e, outcome = Raise e -> self' = self).
Proof.
  intros Htik. unfold create.
  destruct (generate_content sdk _ extra) as [r|e].
  - intros H. injection H as <- <-.
    pose proof (estimate_nonneg tiktoken (_convert_messages_to_prompt messages) Htik).
    pose proof (estimate_nonneg tiktoken (text r) Htik).
    unfold _update_usage, counters, usage_le.
    destruct (_usage self) as [[actual total]|]; simpl; repeat split; try lia; discriminate.
  - intros H. injection H as <- <-. unfold usage_le. repeat split; lia.
Qed.

Lemma gemini_counters_monotone_witness :
  let self' := (create gemini_client echo_sdk no_tiktoken [hello] ∅).2 in
  usage_le (counters (_usage gemini_client)).1 (counters (_usage self')).1 /\
  usage_le (counters (_usage gemini_client)).2 (counters (_usage self')).2.
Proof.
  intros self'.
  destruct (gemini_counters_monotone gemini_client self' echo_sdk no_tiktoken [hello] ∅
              (create gemini_client echo_sdk no_tiktoken [hello] ∅).1)
    as (H1 & H2 & _).
  - intros s n H. discriminate H.
  - reflexivity.
  - split; assumption.
Defined.

Lemma prompt_truthy messages : str_truthy (_convert_messages_to_prompt messages) = true.
Proof.
  unfold _convert_messages_to_prompt. rewrite prompt_lines_from.
  change ([system_line] ++ map line_of messages)
    with (system_line :: map line_of messages).
  destruct (map line_of messages); reflexivity.
Qed.

(** The two estimates of a prompt.  [count_tokens] on a list of messages
    is the estimate of their prompt, by the tokenizer if it works and by
    the number of words if not, but 0 for the empty list, of which 8192
    tokens remain; [create] reports as prompt tokens the estimate of the
    prompt for any list, the empty one too, whose prompt is the guidance
    line. *)
Theorem gemini_token_estimates (tiktoken : string -> option Z) :
  count_tokens tiktoken [] = 0 /\
  remaining_tokens tiktoken [] = 8192 /\
  (forall (m : message) (rest : list message),
     count_tokens tiktoken (m :: rest) =
     default (split_len (_convert_messages_to_prompt (m :: rest)))
             (tiktoken (_convert_messages_to_prompt (m :: rest)))) /\
  (forall self self' sdk messages extra r,
     create self sdk tiktoken messages extra = (Ok r, self') ->
     prompt_tokens (usage r) =
     default (split_len (_convert_messages_to_prompt messages))
             (tiktoken (_convert_messages_to_prompt messages))).
Proof.
  split; [reflexivity|]. split; [reflexivity|]. split.
  - intros m rest. unfold count_tokens, estimate.
    now destruct (tiktoken _).
  - intros self self' sdk messages extra r Hcreate.
    destruct (GeminiSpec.gemini_create_returns _ _ _ _ _ _ _ Hcreate) as (_ & Hp & _).
    simpl in Hp. rewrite Hp. unfold count_tokens_str, estimate.
    rewrite prompt_truthy. now destruct (tiktoken _).
Qed.

Lemma gemini_token_estimates_witness :
  prompt_tokens
    (usage {| finish_reason := "stop"; result_content := "good day";
              usage := {| prompt_tokens := 2; completion_tokens := 2 |};
              cached := false |})
  = default (split_len (_convert_messages_to_prompt []))
            (no_tiktoken (_convert_messages_to_prompt [])).
Proof.
  exact (proj2 (proj2 (proj2 (gemini_token_estimates no_tiktoken)))
           gemini_client _ echo_sdk [] ∅ _ eq_refl).
Defined.

End GeminiMore.

(** ** More on the usage counters *)

Module UsageMore.

Lemma bedrock_failure_keeps self self' vendor messages json_output extra e :
  Bedrock.create self vendor messages json_output extra = Some (Raise e, self') ->
  self' = self.
Proof.
  unfold Bedrock.create.
  destruct (Bedrock.call_with_extra _ _ _ _) as [response|e']; [|congruence].
  destruct (Bedrock.choices response) as [|c rest]; [congruence|].
  destruct (Bedrock.count_tokens messages) as [n|e']; [|congruence].
  destruct (Bedrock.message_content (Bedrock.choice_message c)); congruence.
Qed.

Lemma gemini_failure_keeps self self' sdk tiktoken messages extra e :
  Gemini.create self sdk tiktoken messages extra = (Raise e, self') ->
  self' = self.
Proof.
  unfold Gemini.create. destruct (Gemini.generate_content sdk _ extra); congruence.
Qed.



(** The actual and the total counters of an instance are always the
    same: they start out together and every call of [create], whatever
    its outcome, keeps them equal. *)
Theorem actual_and_total_agree :
  (forall (self self' : Bedrock.BedrockClaudeChatCompletionClient)
          (vendor : Bedrock.backend) (messages : list message) (json_output : bool)
          (extra : gmap string kwval) (outcome : result CreateResult),
     counters_agree (Bedrock._usage self) ->
     Bedrock.create self vendor messages json_output extra = Some (outcome, self') ->
     counters_agree (Bedrock._usage self')) /\
  (forall (self self' : Gemini.GeminiChatCompletionClient)
          (sdk : Gemini.generative_model) (tiktoken : string -> option Z)
          (messages : list message) (extra : gmap string kwval)
          (outcome : result CreateResult),
     counters_agree (Gemini._usage self) ->
     Gemini.create self sdk tiktoken messages extra = (outcome, self') ->
     counters_agree (Gemini._usage self')).
Proof.
  split.
  - intros self self' vendor messages json_output extra [r|e] Hagree Hcreate.
    + destruct (BedrockSpec.bedrock_create_returns _ _ _ _ _ _ _ Hcreate) as (-> & _).
      rewrite BedrockSpec.bedrock_update_usage_bump. unfold bump.
      destruct (Bedrock._usage self) as [[actual total]|]; simpl in *; congruence.
    + now rewrite (bedrock_failure_keeps _ _ _ _ _ _ _ Hcreate).
  - intros self self' sdk tiktoken messages extra [r|e] Hagree Hcreate.
    + destruct (GeminiSpec.gemini_create_returns _ _ _ _ _ _ _ Hcreate) as (-> & _).
      rewrite GeminiSpec.gemini_update_usage_bump. unfold bump.
      destruct (Gemini._usage self) as [[actual total]|]; simpl in *; congruence.
    + now rewrite (gemini_failure_keeps _ _ _ _ _ _ _ Hcreate).
Qed.

Lemma actual_and_total_agree_witness :
  counters_agree
    (Bedrock._usage
       (Bedrock._update_usage Examples.bedrock_client (usage Examples.bedrock_result))).
Proof.
  exact (proj1 actual_and_total_agree Examples.bedrock_client
           (Bedrock._update_usage Examples.bedrock_client (usage Examples.bedrock_result))
           Examples.terse_vendor [Examples.hello] false ∅ (Ok Examples.bedrock_result)
           I eq_refl).
Defined.

End UsageMore.
